(** * Hogan's Alley Google Ads tool layer: a shallow embedding

    The development follows [hogans_ads_mcp/tools/{campaigns,ads,keywords,
    reporting}.py].  Python values are modelled as the code has them:

    - [str] as [string] (7-bit text; [upper], [strip] and [split] follow the
      CPython definitions on that alphabet);
    - [float] as an IEEE-754 binary64 value ([spec_float] with precision 53
      and maximal exponent 1024), every operation rounding to nearest even;
    - [int] as [Z];
    - protobuf messages as records whose fields are [option]s ([None] is a
      field that was never assigned);
    - a tool as a small interaction program: it either returns its text,
      raises a Python exception, or sends one request to the platform stub
      and continues with the reply.

    The client library is an external collaborator: its messages are taken
    to hold any integer or text they are assigned, its path builders are
    parameters, and a call either answers or raises [GoogleAdsException]. *)

From Stdlib Require Import ZArith List String Ascii Bool Lia.
From Stdlib Require Import SpecFloat DecimalString Permutation.
Import ListNotations.

Open Scope string_scope.
Open Scope Z_scope.

(* ================================================================= *)
(** ** Python strings *)

Module PyStr.

Definition nl : string := String (ascii_of_nat 10) EmptyString.

(** [str.isspace] on one character: TAB..CR, FS..US and the blank. *)
Definition is_space (c : ascii) : bool :=
  let n := nat_of_ascii c in
  ((9 <=? n) && (n <=? 13) || (28 <=? n) && (n <=? 32))%nat.

Fixpoint lstrip (s : string) : string :=
  match s with
  | EmptyString => EmptyString
  | String c s' => if is_space c then lstrip s' else s
  end.

Fixpoint rstrip (s : string) : string :=
  match s with
  | EmptyString => EmptyString
  | String c s' =>
      match rstrip s' with
      | EmptyString => if is_space c then EmptyString else String c EmptyString
      | r => String c r
      end
  end.

(** [s.strip()] *)
Definition strip (s : string) : string := rstrip (lstrip s).

Definition upper_char (c : ascii) : ascii :=
  let n := nat_of_ascii c in
  if ((97 <=? n) && (n <=? 122))%nat then ascii_of_nat (n - 32) else c.

(** [s.upper()] *)
Fixpoint upper (s : string) : string :=
  match s with
  | EmptyString => EmptyString
  | String c s' => String (upper_char c) (upper s')
  end.

(** [s.split(sep)] for a one-character separator: never the empty list. *)
Fixpoint split (sep : ascii) (s : string) : list string :=
  match s with
  | EmptyString => [EmptyString]
  | String c s' =>
      if Ascii.eqb c sep then EmptyString :: split sep s'
      else match split sep s' with
           | [] => [String c EmptyString]
           | h :: t => String c h :: t
           end
  end.

(** [sep.join(items)] *)
Definition join (sep : string) (items : list string) : string :=
  String.concat sep items.

(** [c in s] for a one-character needle. *)
Fixpoint contains (c : ascii) (s : string) : bool :=
  match s with
  | EmptyString => false
  | String c' s' => Ascii.eqb c' c || contains c s'
  end.

(** [s.replace(c, "")] for a one-character pattern. *)
Fixpoint remove_char (c : ascii) (s : string) : string :=
  match s with
  | EmptyString => EmptyString
  | String c' s' =>
      if Ascii.eqb c' c then remove_char c s' else String c' (remove_char c s')
  end.

(** [c * n] *)
Fixpoint repeat_char (c : ascii) (n : nat) : string :=
  match n with
  | O => EmptyString
  | S k => String c (repeat_char c k)
  end.

(** Truthiness of a [str]. *)
Definition truthy (s : string) : bool :=
  match s with EmptyString => false | _ => true end.

(** Truthiness of an [Optional[str]]. *)
Definition truthy_opt (o : option string) : bool :=
  match o with Some s => truthy s | None => false end.

(** [str(n)] for a non-negative [int]. *)
Definition str_nat (n : Z) : string :=
  NilZero.string_of_uint (N.to_uint (Z.to_N n)).

(** [str(n)] *)
Definition str_int (n : Z) : string :=
  if n <? 0 then "-" ++ str_nat (- n) else str_nat n.

(** Thousands separators, working on the reversed digit string. *)
Fixpoint group3 (k : nat) (rev_digits : list ascii) (acc : string) : string :=
  match rev_digits with
  | [] => acc
  | c :: rest =>
      match k with
      | O => group3 2 rest (String c (String "," acc))
      | S k' => group3 k' rest (String c acc)
      end
  end.

(** [f"{n:,}"] *)
Definition format_comma (n : Z) : string :=
  let body := group3 3 (rev (list_ascii_of_string (str_nat (Z.abs n)))) "" in
  if n <? 0 then "-" ++ body else body.

End PyStr.

(* ================================================================= *)
(** ** Python floats (binary64) *)

Module PyFloat.

Definition prec : Z := 53.
Definition emax : Z := 1024.

Definition float : Type := spec_float.

Definition zero : float := S754_zero false.

Definition mul : float -> float -> float := SFmul prec emax.
Definition add : float -> float -> float := SFadd prec emax.
Definition div : float -> float -> float := SFdiv prec emax.
Definition ltb : float -> float -> bool := SFltb.
Definition leb : float -> float -> bool := SFleb.

(** Conversion of an [int] operand in mixed arithmetic (correctly rounded). *)
Definition of_int (z : Z) : float := binary_normalize prec emax z 0 false.

(** [a / b] on two [int]s: the correctly rounded quotient.  Python raises
    [ZeroDivisionError] for [b = 0]; every divisor in the modelled code is
    either the literal [1_000_000] or guarded by a truthiness test. *)
Definition int_truediv (a b : Z) : float :=
  match a, b with
  | _, Z0 => S754_nan
  | Z0, _ => S754_zero (b <? 0)
  | _, _ =>
      let '(q, e, l) := SFdiv_core_binary prec emax (Z.abs a) 0 (Z.abs b) 0 in
      binary_round_aux prec emax (xorb (a <? 0) (b <? 0)) q e l
  end.


(** Truthiness of a [float]: everything but the two zeros. *)
Definition truthy (x : float) : bool :=
  match x with S754_zero _ => false | _ => true end.

Definition sign (x : float) : bool :=
  match x with
  | S754_zero s | S754_infinity s | S754_finite s _ _ => s
  | S754_nan => false
  end.

(** Nearest integer to [num / den], ties to even ([den > 0], [num >= 0]). *)
Definition round_half_even (num den : Z) : Z :=
  let q := num / den in
  match 2 * (num mod den) ?= den with
  | Lt => q
  | Eq => if Z.even q then q else q + 1
  | Gt => q + 1
  end.

(** [|x| * 10^p] rounded to the nearest integer, ties to even, computed on
    the exact value of [x]: the digits both [format(x, ".pf")] and
    [round(x, p)] are built from. *)
Definition scaled (p : nat) (x : float) : Z :=
  match x with
  | S754_finite _ m e =>
      if 0 <=? e then Zpos m * 2 ^ e * 10 ^ Z.of_nat p
      else round_half_even (Zpos m * 10 ^ Z.of_nat p) (2 ^ (- e))
  | _ => 0
  end.

(** [round(x, p)] for [p >= 0]: the double nearest to the correctly rounded
    [p]-digit decimal; infinities and NaN are returned unchanged. *)
Definition round (x : float) (p : nat) : float :=
  match x with
  | S754_finite s _ _ =>
      match scaled p x with
      | Z0 => S754_zero s
      | n => int_truediv (cond_Zopp s n) (10 ^ Z.of_nat p)
      end
  | _ => x
  end.

(** The [p] digits after the decimal point. *)
Fixpoint frac_digits (p : nat) (n : Z) : string :=
  match p with
  | O => EmptyString
  | S p' =>
      frac_digits p' (n / 10)
      ++ String (ascii_of_nat (48 + Z.to_nat (n mod 10))) EmptyString
  end.

(** A non-negative count [n] of [10^-p] units as fixed-point text. *)
Definition fixed (p : nat) (n : Z) : string :=
  PyStr.str_nat (n / 10 ^ Z.of_nat p)
  ++ match p with
     | O => EmptyString
     | _ => "." ++ frac_digits p (n mod 10 ^ Z.of_nat p)
     end.

(** [f"{x:.pf}"] *)
Definition format_f (p : nat) (x : float) : string :=
  match x with
  | S754_nan => "nan"
  | S754_infinity s => if s then "-inf" else "inf"
  | _ => (if sign x then "-" else "") ++ fixed p (scaled p x)
  end.

(** [f"{x:.p%}"]: the value is multiplied by 100 in binary64 first. *)
Definition format_pct (p : nat) (x : float) : string :=
  format_f p (mul x (of_int 100)) ++ "%".

(** The double a decimal literal [n * 10^-k] denotes ([0 <= k]). *)
Definition literal (n : Z) (k : nat) : float := int_truediv n (10 ^ Z.of_nat k).

End PyFloat.

Example upper_mixed : PyStr.upper "pAuSeD" = "PAUSED".
Proof. reflexivity. Qed.

Example strip_blanks : PyStr.strip "  b c " = "b c".
Proof. reflexivity. Qed.

Example split_commas : PyStr.split "," "a, b ,c" = ["a"; " b "; "c"].
Proof. reflexivity. Qed.

Example format_comma_millions : PyStr.format_comma 1234567 = "1,234,567".
Proof. reflexivity. Qed.

Example format_eighth : PyFloat.format_f 2 (PyFloat.literal 125 3) = "0.12".
Proof. vm_compute. reflexivity. Qed.

Example format_pct_ratio :
  PyFloat.format_pct 2 (PyFloat.literal 12345 5) = "12.35%".
Proof. vm_compute. reflexivity. Qed.

Example round_up_third_decimal :
  PyFloat.round (PyFloat.literal 2675 3) 2 = PyFloat.literal 267 2.
Proof. vm_compute. reflexivity. Qed.

(* ================================================================= *)
(** ** The platform stub: enums, messages, operations, rows *)

(** Python exceptions that escape a tool (none of them is caught by the
    [except GoogleAdsException] clauses). *)
Inductive PyExn : Type :=
| ValueError
| OverflowError
| IndexError.

(** [CampaignStatusEnum], [AdGroupStatusEnum], [AdGroupAdStatusEnum] and
    [AdGroupCriterionStatusEnum] members used by the tools. *)
Inductive Status : Type := ENABLED | PAUSED | REMOVED.

(** [AdvertisingChannelTypeEnum] *)
Inductive Channel : Type := SEARCH | DISPLAY | DISCOVERY.

(** [KeywordMatchTypeEnum] *)
Inductive MatchType : Type := EXACT | PHRASE | BROAD.

(** [BudgetDeliveryMethodEnum] *)
Inductive Delivery : Type := STANDARD.

(** [AdGroupTypeEnum] *)
Inductive AdGroupType : Type := SEARCH_STANDARD.

Record CampaignBudget : Type := {
  budget_resource_name : option string;
  budget_name : option string;
  amount_micros : option Z;
  delivery_method : option Delivery
}.

Record Campaign : Type := {
  campaign_resource_name : option string;
  campaign_name : option string;
  campaign_budget : option string;
  campaign_status : option Status;
  advertising_channel_type : option Channel;
  target_spend_micros : option Z;
  start_date : option string;
  end_date : option string
}.

Record AdGroup : Type := {
  ad_group_name : option string;
  ad_group_campaign : option string;
  ad_group_status : option Status;
  ad_group_type : option AdGroupType;
  cpc_bid_micros : option Z
}.

Record AdGroupAd : Type := {
  ad_resource_name : option string;
  ad_ad_group : option string;
  ad_status : option Status;
  final_urls : list string;
  rsa_headlines : list string;
  rsa_descriptions : list string;
  rsa_path1 : option string;
  rsa_path2 : option string
}.

Record AdGroupCriterion : Type := {
  criterion_ad_group : option string;
  keyword_text : option string;
  keyword_match_type : option MatchType;
  criterion_status : option Status;
  criterion_cpc_bid_micros : option Z
}.

Record CampaignCriterion : Type := {
  criterion_campaign : option string;
  negative : option bool;
  negative_keyword_text : option string;
  negative_match_type : option MatchType
}.

(** An operation message: the [create] or the [update] member is filled;
    an update carries the paths appended to its [update_mask]. *)
Inductive Operation (E : Type) : Type :=
| Create (entity : E)
| Update (entity : E) (update_mask : list string).

Arguments Create {E} entity.
Arguments Update {E} entity update_mask.

(** The operation batches of the six mutate services. *)
Inductive Operations : Type :=
| mutate_campaign_budgets (ops : list (Operation CampaignBudget))
| mutate_campaigns (ops : list (Operation Campaign))
| mutate_ad_groups (ops : list (Operation AdGroup))
| mutate_ad_group_ads (ops : list (Operation AdGroupAd))
| mutate_ad_group_criteria (ops : list (Operation AdGroupCriterion))
| mutate_campaign_criteria (ops : list (Operation CampaignCriterion)).

(** What crosses the boundary into the platform. *)
Inductive Request : Type :=
| SearchRequest (customer_id query : string)
| MutateRequest (customer_id : string) (operations : Operations).

(** Rows of a search response; enum-valued columns are kept by [.name]. *)
Record MetricsRow : Type := {
  impressions : Z;
  clicks : Z;
  ctr : PyFloat.float;
  average_cpc : PyFloat.float;
  cost_micros : Z;
  conversions : PyFloat.float;
  conversions_value : PyFloat.float;
  cost_per_conversion : PyFloat.float
}.

Record CampaignRow : Type := {
  row_campaign_id : Z;
  row_campaign_name : string;
  row_campaign_status : string;
  row_channel : string;
  row_bidding_strategy : string;
  row_start_date : string;
  row_end_date : string;
  row_campaign_budget : string
}.

Record AdGroupRow : Type := {
  row_ad_group_id : Z;
  row_ad_group_name : string;
  row_ad_group_status : string
}.

Record AdRow : Type := {
  row_ad_id : Z;
  row_ad_type : string;
  row_ad_status : string;
  row_ad_headlines : list string
}.

Record CriterionRow : Type := {
  row_criterion_id : Z;
  row_keyword_text : string;
  row_match_type : string;
  row_criterion_status : string;
  row_effective_cpc_bid_micros : Z;
  row_quality_score : Z
}.

Record GeoRow : Type := {
  row_country_criterion_id : Z;
  row_location_type : string
}.

Record Row : Type := {
  campaign : CampaignRow;
  budget_amount_micros : Z;
  metrics : MetricsRow;
  ad_group : AdGroupRow;
  ad_group_ad : AdRow;
  ad_group_criterion : CriterionRow;
  search_term : string;
  geographic_view : GeoRow
}.

(** What a platform call gives back: a value, or a raised
    [GoogleAdsException] with the messages of [ex.failure.errors]. *)
Inductive Reply (A : Type) : Type :=
| Ok (value : A)
| GoogleAdsException (errors : list string).

Arguments Ok {A} value.
Arguments GoogleAdsException {A} errors.

(** A tool invocation.  [Search] is [ga_service.search]; [Mutate] is one of
    the [mutate_*] calls, answered by the resource names of
    [response.results]. *)
Inductive Prog : Type :=
| Return (text : string)
| Raise (e : PyExn)
| Search (customer_id query : string) (k : Reply (list Row) -> Prog)
| Mutate (customer_id : string) (operations : Operations)
         (k : Reply (list string) -> Prog).

(** [Sends p r]: along some sequence of platform replies, [p] sends [r]. *)
Inductive Sends : Prog -> Request -> Prop :=
| sends_search cid q k : Sends (Search cid q k) (SearchRequest cid q)
| sends_mutate cid ops k : Sends (Mutate cid ops k) (MutateRequest cid ops)
| sends_after_search cid q k reply r :
    Sends (k reply) r -> Sends (Search cid q k) r
| sends_after_mutate cid ops k reply r :
    Sends (k reply) r -> Sends (Mutate cid ops k) r.

(** The tool never reaches the platform. *)
Definition local (p : Prog) : Prop := forall r, ~ Sends p r.

(** How an invocation ends. *)
Inductive Outcome : Type :=
| Returned (text : string)
| Raised (e : PyExn).

(** A platform stub answers each request. *)
Record Platform : Type := {
  answer_search : string -> string -> Reply (list Row);
  answer_mutate : string -> Operations -> Reply (list string)
}.

(** Running a tool against a stub: the requests sent, in order, and the
    outcome. *)
Fixpoint run (pf : Platform) (p : Prog) : list Request * Outcome :=
  match p with
  | Return text => ([], Returned text)
  | Raise e => ([], Raised e)
  | Search cid q k =>
      let '(sent, out) := run pf (k (answer_search pf cid q)) in
      (SearchRequest cid q :: sent, out)
  | Mutate cid ops k =>
      let '(sent, out) := run pf (k (answer_mutate pf cid ops)) in
      (MutateRequest cid ops :: sent, out)
  end.

(** The path builders of the client library's services: opaque to this
    layer, which only composes and forwards their results. *)
Record Client : Type := {
  campaign_path : string -> string -> string;
  ad_group_path : string -> string -> string;
  ad_group_ad_path : string -> string -> string -> string
}.

(** A Python [dict] literal with string keys. *)
Fixpoint dict_get {V : Type} (d : list (string * V)) (key : string) : option V :=
  match d with
  | [] => None
  | (k, v) :: rest => if String.eqb k key then Some v else dict_get rest key
  end.

(** [response.results[0].resource_name] *)
Definition first_result (results : list string) : PyExn + string :=
  match results with
  | [] => inl IndexError
  | r :: _ => inr r
  end.

(** The two money conversions the tools inline. *)

(** The integer part of [m * 2^e]. *)
Definition integer_part (m : positive) (e : Z) : Z :=
  if 0 <=? e then Zpos m * 2 ^ e else Zpos m / 2 ^ (- e).

(** [int(x)] on a float: truncation toward zero. *)
Definition int_of_float (x : PyFloat.float) : PyExn + Z :=
  match x with
  | S754_zero _ => inr 0
  | S754_finite s m e => inr (cond_Zopp s (integer_part m e))
  | S754_infinity _ => inl OverflowError
  | S754_nan => inl ValueError
  end.

(** [int(dollars * 1_000_000)] *)
Definition dollars_to_micros (dollars : PyFloat.float) : PyExn + Z :=
  int_of_float (PyFloat.mul dollars (PyFloat.of_int 1000000)).

(** [micros / 1_000_000] for an integer column. *)
Definition micros_to_dollars (micros : Z) : PyFloat.float :=
  PyFloat.int_truediv micros 1000000.

(** [value / 1_000_000] for a double column. *)
Definition float_micros_to_dollars (value : PyFloat.float) : PyFloat.float :=
  PyFloat.div value (PyFloat.of_int 1000000).

(** [f"${x:.2f}"] *)
Definition usd (x : PyFloat.float) : string := "$" ++ PyFloat.format_f 2 x.

(* ================================================================= *)
(** ** tools/campaigns.py *)

Module campaigns.

(** [_format_error(ex)], on the messages of [ex.failure.errors]. *)
Definition _format_error (errors : list string) : string :=
  let messages := map (fun message => "Error: " ++ message) errors in
  "Google Ads API Error:" ++ PyStr.nl ++ PyStr.join PyStr.nl messages.

Definition list_campaigns_query : string := "
    SELECT
      campaign.id,
      campaign.name,
      campaign.status,
      campaign.advertising_channel_type,
      campaign_budget.amount_micros,
      campaign.start_date,
      campaign.end_date
    FROM campaign
  ".

Definition list_campaigns_row (row : Row) : string :=
  let c := campaign row in
  let budget_amount := micros_to_dollars (budget_amount_micros row) in
  "ID: " ++ PyStr.str_int (row_campaign_id c) ++ PyStr.nl
  ++ "  Name: " ++ row_campaign_name c ++ PyStr.nl
  ++ "  Status: " ++ row_campaign_status c ++ PyStr.nl
  ++ "  Channel: " ++ row_channel c ++ PyStr.nl
  ++ "  Daily Budget: " ++ usd budget_amount ++ PyStr.nl
  ++ "  Start: " ++ row_start_date c ++ PyStr.nl
  ++ "  End: " ++ row_end_date c.

Definition list_campaigns (customer_id : string)
    (status_filter : option string) : Prog :=
  let query := list_campaigns_query in
  let query :=
    match status_filter with
    | Some f =>
        if PyStr.truthy f
        then query ++ " WHERE campaign.status = '" ++ f ++ "'"
        else query
    | None => query
    end in
  let query := query ++ " ORDER BY campaign.name" in
  Search customer_id query (fun response =>
    match response with
    | GoogleAdsException errors => Return (_format_error errors)
    | Ok rows =>
        let results := map list_campaigns_row rows in
        match results with
        | [] => Return "No campaigns found."
        | _ =>
            Return ("Found " ++ PyStr.str_int (Z.of_nat (List.length results))
                    ++ " campaign(s):" ++ PyStr.nl ++ PyStr.nl
                    ++ PyStr.join (PyStr.nl ++ PyStr.nl) results)
        end
    end).

Definition get_campaign_query (campaign_id : string) : string := "
    SELECT
      campaign.id,
      campaign.name,
      campaign.status,
      campaign.advertising_channel_type,
      campaign.bidding_strategy_type,
      campaign_budget.amount_micros,
      campaign_budget.delivery_method,
      campaign.start_date,
      campaign.end_date,
      campaign.target_spend.target_spend_micros,
      campaign.geo_target_type_setting.positive_geo_target_type,
      metrics.impressions,
      metrics.clicks,
      metrics.cost_micros,
      metrics.conversions,
      metrics.ctr,
      metrics.average_cpc
    FROM campaign
    WHERE campaign.id = " ++ campaign_id ++ "
  ".

Definition get_campaign_row (row : Row) : string :=
  let c := campaign row in
  let m := metrics row in
  let budget := micros_to_dollars (budget_amount_micros row) in
  let cost := micros_to_dollars (cost_micros m) in
  let avg_cpc := float_micros_to_dollars (average_cpc m) in
  "Campaign: " ++ row_campaign_name c
  ++ " (ID: " ++ PyStr.str_int (row_campaign_id c) ++ ")" ++ PyStr.nl
  ++ "Status: " ++ row_campaign_status c ++ PyStr.nl
  ++ "Channel: " ++ row_channel c ++ PyStr.nl
  ++ "Bidding: " ++ row_bidding_strategy c ++ PyStr.nl
  ++ "Daily Budget: " ++ usd budget ++ PyStr.nl
  ++ "Start: " ++ row_start_date c ++ " | End: " ++ row_end_date c
  ++ PyStr.nl ++ PyStr.nl
  ++ "Performance:" ++ PyStr.nl
  ++ "  Impressions: " ++ PyStr.format_comma (impressions m) ++ PyStr.nl
  ++ "  Clicks: " ++ PyStr.format_comma (clicks m) ++ PyStr.nl
  ++ "  CTR: " ++ PyFloat.format_pct 2 (ctr m) ++ PyStr.nl
  ++ "  Avg CPC: " ++ usd avg_cpc ++ PyStr.nl
  ++ "  Cost: " ++ usd cost ++ PyStr.nl
  ++ "  Conversions: " ++ PyFloat.format_f 1 (conversions m).

Definition get_campaign (customer_id campaign_id : string) : Prog :=
  Search customer_id (get_campaign_query campaign_id) (fun response =>
    match response with
    | GoogleAdsException errors => Return (_format_error errors)
    | Ok (row :: _) => Return (get_campaign_row row)
    | Ok [] => Return ("Campaign " ++ campaign_id ++ " not found.")
    end).

(** The [channel_map] literal of [create_campaign]. *)
Definition channel_map : list (string * Channel) :=
  [("SEARCH", SEARCH); ("DISPLAY", DISPLAY); ("DISCOVERY", DISCOVERY)].

(** [channel_map.get(channel_type.upper(), channel_enum.SEARCH)] *)
Definition channel_of (channel_type : string) : Channel :=
  match dict_get channel_map (PyStr.upper channel_type) with
  | Some ch => ch
  | None => SEARCH
  end.

(** [x or 'Not set'] *)
Definition or_not_set (o : option string) : string :=
  if PyStr.truthy_opt o
  then match o with Some s => s | None => "Not set" end
  else "Not set".

(** A date argument is copied, dashes removed, only when it is truthy. *)
Definition date_field (o : option string) : option string :=
  match o with
  | Some s => if PyStr.truthy s then Some (PyStr.remove_char "-" s) else None
  | None => None
  end.

Definition create_campaign (customer_id name : string)
    (daily_budget_dollars : PyFloat.float) (channel_type : string)
    (start_date end_date : option string) : Prog :=
  (* Create budget *)
  match dollars_to_micros daily_budget_dollars with
  | inl e => Raise e
  | inr micros =>
    let budget := {|
      budget_resource_name := None;
      budget_name := Some (name ++ " Budget");
      amount_micros := Some micros;
      delivery_method := Some STANDARD |} in
    Mutate customer_id (mutate_campaign_budgets [Create budget])
      (fun budget_response =>
    match budget_response with
    | GoogleAdsException errors => Return (_format_error errors)
    | Ok results =>
    match first_result results with
    | inl e => Raise e
    | inr budget_resource =>
      (* Create campaign *)
      let campaign := {|
        campaign_resource_name := None;
        campaign_name := Some name;
        campaign_budget := Some budget_resource;
        campaign_status := Some PAUSED;
        advertising_channel_type := Some (channel_of channel_type);
        (* Use Target Spend (Maximize Clicks) bidding *)
        target_spend_micros := Some 0;
        start_date := date_field start_date;
        end_date := date_field end_date |} in
      Mutate customer_id (mutate_campaigns [Create campaign]) (fun response =>
      match response with
      | GoogleAdsException errors => Return (_format_error errors)
      | Ok results =>
      match first_result results with
      | inl e => Raise e
      | inr resource_name =>
          Return ("Campaign created successfully!" ++ PyStr.nl
                  ++ "  Name: " ++ name ++ PyStr.nl
                  ++ "  Resource: " ++ resource_name ++ PyStr.nl
                  ++ "  Channel: " ++ channel_type ++ PyStr.nl
                  ++ "  Daily Budget: " ++ usd daily_budget_dollars ++ PyStr.nl
                  ++ "  Status: PAUSED (enable when ready)" ++ PyStr.nl
                  ++ "  Start: " ++ or_not_set start_date ++ PyStr.nl
                  ++ "  End: " ++ or_not_set end_date)
      end
      end)
    end
    end)
  end.

(** The [status_map] literal of [update_campaign_status]. *)
Definition status_map : list (string * Status) :=
  [("ENABLED", ENABLED); ("PAUSED", PAUSED); ("REMOVED", REMOVED)].

Section WithClient.
Variable client : Client.

Definition update_campaign_status
    (customer_id campaign_id new_status : string) : Prog :=
  let resource_name := campaign_path client customer_id campaign_id in
  let new_status_upper := PyStr.upper new_status in
  match dict_get status_map new_status_upper with
  | None =>
      Return ("Invalid status: " ++ new_status
              ++ ". Use ENABLED, PAUSED, or REMOVED.")
  | Some status =>
      let campaign := {|
        campaign_resource_name := Some resource_name;
        campaign_name := None;
        campaign_budget := None;
        campaign_status := Some status;
        advertising_channel_type := None;
        target_spend_micros := None;
        start_date := None;
        end_date := None |} in
      let field_mask := ([] ++ ["status"])%list in
      Mutate customer_id (mutate_campaigns [Update campaign field_mask])
        (fun response =>
        match response with
        | GoogleAdsException errors => Return (_format_error errors)
        | Ok _ =>
            Return ("Campaign " ++ campaign_id ++ " status updated to "
                    ++ new_status_upper ++ ".")
        end)
  end.

End WithClient.

Definition update_campaign_budget_query (campaign_id : string) : string := "
    SELECT campaign.campaign_budget
    FROM campaign
    WHERE campaign.id = " ++ campaign_id ++ "
  ".

Definition update_campaign_budget (customer_id campaign_id : string)
    (new_daily_budget_dollars : PyFloat.float) : Prog :=
  (* First, get the budget resource name *)
  Search customer_id (update_campaign_budget_query campaign_id)
    (fun response =>
    match response with
    | GoogleAdsException errors => Return (_format_error errors)
    | Ok rows =>
      let budget_resource :=
        match rows with
        | row :: _ => Some (row_campaign_budget (campaign row))
        | [] => None
        end in
      if negb (PyStr.truthy_opt budget_resource)
      then Return ("Campaign " ++ campaign_id ++ " not found.")
      else
        (* Update the budget *)
        match dollars_to_micros new_daily_budget_dollars with
        | inl e => Raise e
        | inr micros =>
          let budget := {|
            budget_resource_name := budget_resource;
            budget_name := None;
            amount_micros := Some micros;
            delivery_method := None |} in
          let field_mask := ([] ++ ["amount_micros"])%list in
          Mutate customer_id
            (mutate_campaign_budgets [Update budget field_mask])
            (fun reply =>
            match reply with
            | GoogleAdsException errors => Return (_format_error errors)
            | Ok _ =>
                Return ("Campaign " ++ campaign_id ++ " daily budget updated "
                        ++ "to " ++ usd new_daily_budget_dollars ++ ".")
            end)
        end
    end).

End campaigns.

(* ================================================================= *)
(** ** tools/ads.py *)

Module ads.

Definition _format_error (errors : list string) : string :=
  let messages := map (fun message => "Error: " ++ message) errors in
  "Google Ads API Error:" ++ PyStr.nl ++ PyStr.join PyStr.nl messages.

(** The [status_map] literal of [update_ad_status]. *)
Definition status_map : list (string * Status) :=
  [("ENABLED", ENABLED); ("PAUSED", PAUSED); ("REMOVED", REMOVED)].

(** [[h.strip() for h in text.split("|")]] *)
Definition pipe_list (text : string) : list string :=
  map PyStr.strip (PyStr.split "|" text).

(** [path1] and [path2] are copied only when truthy. *)
Definition path_field (o : option string) : option string :=
  match o with
  | Some s => if PyStr.truthy s then Some s else None
  | None => None
  end.

Section WithClient.
Variable client : Client.

Definition create_ad_group (customer_id campaign_id name : string)
    (cpc_bid_dollars : PyFloat.float) : Prog :=
  match dollars_to_micros cpc_bid_dollars with
  | inl e => Raise e
  | inr micros =>
    let ad_group := {|
      ad_group_name := Some name;
      ad_group_campaign := Some (campaign_path client customer_id campaign_id);
      ad_group_status := Some ENABLED;
      ad_group_type := Some SEARCH_STANDARD;
      cpc_bid_micros := Some micros |} in
    Mutate customer_id (mutate_ad_groups [Create ad_group]) (fun response =>
    match response with
    | GoogleAdsException errors => Return (_format_error errors)
    | Ok results =>
    match first_result results with
    | inl e => Raise e
    | inr resource_name =>
        Return ("Ad group created successfully!" ++ PyStr.nl
                ++ "  Name: " ++ name ++ PyStr.nl
                ++ "  Resource: " ++ resource_name ++ PyStr.nl
                ++ "  CPC Bid: " ++ usd cpc_bid_dollars ++ PyStr.nl
                ++ "  Status: ENABLED")
    end
    end)
  end.

Definition create_responsive_search_ad
    (customer_id ad_group_id headlines descriptions final_url : string)
    (path1 path2 : option string) : Prog :=
  (* Add headlines *)
  let headline_list := pipe_list headlines in
  (* Add descriptions *)
  let description_list := pipe_list descriptions in
  let ad_group_ad := {|
    ad_resource_name := None;
    ad_ad_group := Some (ad_group_path client customer_id ad_group_id);
    ad_status := Some ENABLED;
    final_urls := [final_url];
    rsa_headlines := headline_list;
    rsa_descriptions := description_list;
    rsa_path1 := path_field path1;
    rsa_path2 := path_field path2 |} in
  Mutate customer_id (mutate_ad_group_ads [Create ad_group_ad])
    (fun response =>
    match response with
    | GoogleAdsException errors => Return (_format_error errors)
    | Ok results =>
    match first_result results with
    | inl e => Raise e
    | inr resource_name =>
        Return ("Responsive search ad created!" ++ PyStr.nl
                ++ "  Resource: " ++ resource_name ++ PyStr.nl
                ++ "  Headlines ("
                ++ PyStr.str_int (Z.of_nat (List.length headline_list))
                ++ "):" ++ PyStr.nl
                ++ PyStr.join PyStr.nl
                     (map (fun h => "    - " ++ h) headline_list)
                ++ PyStr.nl ++ "  Descriptions ("
                ++ PyStr.str_int (Z.of_nat (List.length description_list))
                ++ "):" ++ PyStr.nl
                ++ PyStr.join PyStr.nl
                     (map (fun d => "    - " ++ d) description_list)
                ++ PyStr.nl ++ "  URL: " ++ final_url)
    end
    end).

Definition update_ad_status
    (customer_id ad_group_id ad_id new_status : string) : Prog :=
  let resource_name := ad_group_ad_path client customer_id ad_group_id ad_id in
  let new_status_upper := PyStr.upper new_status in
  match dict_get status_map new_status_upper with
  | None =>
      Return ("Invalid status: " ++ new_status
              ++ ". Use ENABLED, PAUSED, or REMOVED.")
  | Some status =>
      let ad_group_ad := {|
        ad_resource_name := Some resource_name;
        ad_ad_group := None;
        ad_status := Some status;
        final_urls := [];
        rsa_headlines := [];
        rsa_descriptions := [];
        rsa_path1 := None;
        rsa_path2 := None |} in
      let field_mask := ([] ++ ["status"])%list in
      Mutate customer_id (mutate_ad_group_ads [Update ad_group_ad field_mask])
        (fun response =>
        match response with
        | GoogleAdsException errors => Return (_format_error errors)
        | Ok _ =>
            Return ("Ad " ++ ad_id ++ " status updated to "
                    ++ new_status_upper ++ ".")
        end)
  end.

End WithClient.

Definition list_ads_query (campaign_id : string) : string := "
    SELECT
      ad_group_ad.ad.id,
      ad_group_ad.ad.type,
      ad_group_ad.ad.final_urls,
      ad_group_ad.ad.responsive_search_ad.headlines,
      ad_group_ad.ad.responsive_search_ad.descriptions,
      ad_group_ad.status,
      ad_group.name,
      metrics.impressions,
      metrics.clicks,
      metrics.ctr,
      metrics.cost_micros
    FROM ad_group_ad
    WHERE campaign.id = " ++ campaign_id ++ "
  ".

Definition list_ads_row (row : Row) : string :=
  let ad := ad_group_ad row in
  let m := metrics row in
  let cost := micros_to_dollars (cost_micros m) in
  let headlines := row_ad_headlines ad in
  let headline_preview :=
    match headlines with
    | [] => "N/A"
    | _ => PyStr.join " | " (firstn 3 headlines)
    end in
  "Ad ID: " ++ PyStr.str_int (row_ad_id ad)
  ++ " (" ++ row_ad_status ad ++ ")" ++ PyStr.nl
  ++ "  Ad Group: " ++ row_ad_group_name (ad_group row) ++ PyStr.nl
  ++ "  Type: " ++ row_ad_type ad ++ PyStr.nl
  ++ "  Headlines: " ++ headline_preview ++ PyStr.nl
  ++ "  Impressions: " ++ PyStr.format_comma (impressions m)
  ++ " | Clicks: " ++ PyStr.format_comma (clicks m) ++ " "
  ++ "| CTR: " ++ PyFloat.format_pct 2 (ctr m) ++ " | Cost: " ++ usd cost.

Definition list_ads (customer_id campaign_id : string)
    (status_filter : option string) : Prog :=
  let query := list_ads_query campaign_id in
  let query :=
    match status_filter with
    | Some f =>
        if PyStr.truthy f
        then query ++ " AND ad_group_ad.status = '" ++ f ++ "'"
        else query
    | None => query
    end in
  let query := query ++ " ORDER BY metrics.impressions DESC" in
  Search customer_id query (fun response =>
    match response with
    | GoogleAdsException errors => Return (_format_error errors)
    | Ok rows =>
        let results := map list_ads_row rows in
        match results with
        | [] => Return ("No ads found for campaign " ++ campaign_id ++ ".")
        | _ =>
            Return ("Ads in Campaign " ++ campaign_id ++ ":"
                    ++ PyStr.nl ++ PyStr.nl
                    ++ PyStr.join (PyStr.nl ++ PyStr.nl) results)
        end
    end).

End ads.

(* ================================================================= *)
(** ** tools/keywords.py *)

(** A loop body that may raise, run over a list in order. *)
Fixpoint for_each {A B : Type} (body : A -> PyExn + B) (items : list A)
    : PyExn + list B :=
  match items with
  | [] => inr []
  | x :: rest =>
      match body x with
      | inl e => inl e
      | inr y =>
          match for_each body rest with
          | inl e => inl e
          | inr ys => inr (y :: ys)
          end
      end
  end.

Module keywords.

Definition _format_error (errors : list string) : string :=
  let messages := map (fun message => "Error: " ++ message) errors in
  "Google Ads API Error:" ++ PyStr.nl ++ PyStr.join PyStr.nl messages.

(** The [match_map] literal of [add_keywords]. *)
Definition match_map : list (string * MatchType) :=
  [("EXACT", EXACT); ("PHRASE", PHRASE); ("BROAD", BROAD)].

(** [[kw.strip() for kw in keywords.split(",")]] *)
Definition comma_list (keywords : string) : list string :=
  map PyStr.strip (PyStr.split "," keywords).

Definition list_keywords_query (ad_group_id : string) : string := "
    SELECT
      ad_group_criterion.criterion_id,
      ad_group_criterion.keyword.text,
      ad_group_criterion.keyword.match_type,
      ad_group_criterion.status,
      ad_group_criterion.effective_cpc_bid_micros
    FROM ad_group_criterion
    WHERE ad_group.id = " ++ ad_group_id ++ "
      AND ad_group_criterion.type = 'KEYWORD'
  ".

Definition list_keywords_row (row : Row) : string :=
  let kw := ad_group_criterion row in
  let bid := micros_to_dollars (row_effective_cpc_bid_micros kw) in
  "[" ++ row_match_type kw ++ "] " ++ row_keyword_text kw ++ PyStr.nl
  ++ "  ID: " ++ PyStr.str_int (row_criterion_id kw)
  ++ " | Status: " ++ row_criterion_status kw ++ " "
  ++ "| CPC Bid: " ++ usd bid.

Definition list_keywords (customer_id ad_group_id : string)
    (status_filter : option string) : Prog :=
  let query := list_keywords_query ad_group_id in
  let query :=
    match status_filter with
    | Some f =>
        if PyStr.truthy f
        then query ++ " AND ad_group_criterion.status = '" ++ f ++ "'"
        else query
    | None => query
    end in
  Search customer_id query (fun response =>
    match response with
    | GoogleAdsException errors => Return (_format_error errors)
    | Ok rows =>
        let results := map list_keywords_row rows in
        match results with
        | [] => Return ("No keywords found in ad group " ++ ad_group_id ++ ".")
        | _ =>
            Return ("Keywords in Ad Group " ++ ad_group_id ++ ":"
                    ++ PyStr.nl ++ PyStr.nl
                    ++ PyStr.join (PyStr.nl ++ PyStr.nl) results)
        end
    end).

(** [if cpc_bid_dollars: criterion.cpc_bid_micros = int(... * 1_000_000)] *)
Definition keyword_bid (cpc_bid_dollars : option PyFloat.float)
    : PyExn + option Z :=
  match cpc_bid_dollars with
  | Some bid =>
      if PyFloat.truthy bid
      then match dollars_to_micros bid with
           | inl e => inl e
           | inr micros => inr (Some micros)
           end
      else inr None
  | None => inr None
  end.

Section WithClient.
Variable client : Client.

Definition add_keywords (customer_id ad_group_id keywords match_type : string)
    (cpc_bid_dollars : option PyFloat.float) : Prog :=
  let match_type_upper := PyStr.upper match_type in
  match dict_get match_map match_type_upper with
  | None =>
      Return ("Invalid match type: " ++ match_type
              ++ ". Use EXACT, PHRASE, or BROAD.")
  | Some matching =>
      let keyword_list := comma_list keywords in
      let body (keyword_text : string) :=
        match keyword_bid cpc_bid_dollars with
        | inl e => inl e
        | inr bid =>
            inr (Create {|
              criterion_ad_group :=
                Some (ad_group_path client customer_id ad_group_id);
              keyword_text := Some keyword_text;
              keyword_match_type := Some matching;
              criterion_status := Some ENABLED;
              criterion_cpc_bid_micros := bid |})
        end in
      match for_each body keyword_list with
      | inl e => Raise e
      | inr operations =>
          Mutate customer_id (mutate_ad_group_criteria operations)
            (fun response =>
            match response with
            | GoogleAdsException errors => Return (_format_error errors)
            | Ok results =>
                let added := List.length results in
                Return ("Added " ++ PyStr.str_int (Z.of_nat added)
                        ++ " keyword(s) to ad group " ++ ad_group_id ++ ":"
                        ++ PyStr.nl
                        ++ PyStr.join PyStr.nl
                             (map (fun kw =>
                                     "  [" ++ match_type_upper ++ "] " ++ kw)
                                  keyword_list))
            end)
      end
  end.

Definition add_negative_keywords
    (customer_id campaign_id keywords : string) : Prog :=
  let keyword_list := comma_list keywords in
  let operations :=
    map (fun keyword_text =>
           Create {|
             criterion_campaign :=
               Some (campaign_path client customer_id campaign_id);
             negative := Some true;
             negative_keyword_text := Some keyword_text;
             negative_match_type := Some BROAD |})
        keyword_list in
  Mutate customer_id (mutate_campaign_criteria operations) (fun response =>
    match response with
    | GoogleAdsException errors => Return (_format_error errors)
    | Ok results =>
        let added := List.length results in
        Return ("Added " ++ PyStr.str_int (Z.of_nat added)
                ++ " negative keyword(s) to campaign " ++ campaign_id ++ ":"
                ++ PyStr.nl
                ++ PyStr.join PyStr.nl
                     (map (fun kw => "  - " ++ kw) keyword_list))
    end).

End WithClient.

Definition get_keyword_performance_query
    (campaign_id date_range : string) : string := "
    SELECT
      ad_group_criterion.keyword.text,
      ad_group_criterion.keyword.match_type,
      ad_group.name,
      metrics.impressions,
      metrics.clicks,
      metrics.ctr,
      metrics.average_cpc,
      metrics.cost_micros,
      metrics.conversions,
      ad_group_criterion.quality_info.quality_score
    FROM keyword_view
    WHERE campaign.id = " ++ campaign_id ++ "
      AND segments.date DURING " ++ date_range ++ "
    ORDER BY metrics.cost_micros DESC
    LIMIT 50
  ".

Definition get_keyword_performance_row (row : Row) : string :=
  let kw := ad_group_criterion row in
  let m := metrics row in
  let cost := micros_to_dollars (cost_micros m) in
  let avg_cpc := float_micros_to_dollars (average_cpc m) in
  let qs :=
    if row_quality_score kw =? 0 then "N/A"
    else PyStr.str_int (row_quality_score kw) in
  "[" ++ row_match_type kw ++ "] " ++ row_keyword_text kw ++ " "
  ++ "(Ad Group: " ++ row_ad_group_name (ad_group row) ++ ")" ++ PyStr.nl
  ++ "  Impressions: " ++ PyStr.format_comma (impressions m)
  ++ " | Clicks: " ++ PyStr.format_comma (clicks m) ++ " "
  ++ "| CTR: " ++ PyFloat.format_pct 2 (ctr m) ++ PyStr.nl
  ++ "  Cost: " ++ usd cost ++ " | Avg CPC: " ++ usd avg_cpc ++ " "
  ++ "| Conversions: " ++ PyFloat.format_f 1 (conversions m) ++ PyStr.nl
  ++ "  Quality Score: " ++ qs.

Definition get_keyword_performance
    (customer_id campaign_id date_range : string) : Prog :=
  Search customer_id (get_keyword_performance_query campaign_id date_range)
    (fun response =>
    match response with
    | GoogleAdsException errors => Return (_format_error errors)
    | Ok rows =>
        let results := map get_keyword_performance_row rows in
        match results with
        | [] =>
            Return ("No keyword data found for campaign " ++ campaign_id ++ ".")
        | _ =>
            Return ("Keyword Performance (" ++ date_range ++ "):"
                    ++ PyStr.nl ++ PyStr.nl
                    ++ PyStr.join (PyStr.nl ++ PyStr.nl) results)
        end
    end).

End keywords.

(* ================================================================= *)
(** ** tools/reporting.py *)

Module reporting.

Definition _format_error (errors : list string) : string :=
  let messages := map (fun message => "Error: " ++ message) errors in
  "Google Ads API Error:" ++ PyStr.nl ++ PyStr.join PyStr.nl messages.

Definition get_campaign_performance_query : string := "
    SELECT
      campaign.id,
      campaign.name,
      campaign.status,
      metrics.impressions,
      metrics.clicks,
      metrics.ctr,
      metrics.average_cpc,
      metrics.cost_micros,
      metrics.conversions,
      metrics.conversions_value,
      metrics.cost_per_conversion
    FROM campaign
    WHERE campaign.status != 'REMOVED'
  ".

(** The date predicate appended to the query: a range holding a comma is
    unpacked into exactly two parts, anything else is a [DURING] token. *)
Definition date_filter (date_range : string) : PyExn + string :=
  if PyStr.contains "," date_range then
    match PyStr.split "," date_range with
    | [start; end_] =>
        inr (" AND segments.date >= '" ++ PyStr.strip start ++ "'"
             ++ " AND segments.date <= '" ++ PyStr.strip end_ ++ "'")
    | _ => inl ValueError
    end
  else inr (" AND segments.date DURING " ++ date_range).

(** [cost], [avg_cpc], [cpc_conv] and [roas] of one row. *)
Definition row_cost (m : MetricsRow) : PyFloat.float :=
  micros_to_dollars (cost_micros m).

Definition row_cpa (m : MetricsRow) : PyFloat.float :=
  if PyFloat.truthy (conversions m)
  then float_micros_to_dollars (cost_per_conversion m)
  else PyFloat.zero.

Definition row_roas (m : MetricsRow) : PyFloat.float :=
  let cost := row_cost m in
  if PyFloat.ltb PyFloat.zero cost
  then PyFloat.div (conversions_value m) cost
  else PyFloat.zero.

Definition get_campaign_performance_row (row : Row) : string :=
  let c := campaign row in
  let m := metrics row in
  let cost := row_cost m in
  let avg_cpc := float_micros_to_dollars (average_cpc m) in
  let cpc_conv := row_cpa m in
  let roas := row_roas m in
  row_campaign_name c ++ " (" ++ row_campaign_status c ++ ")" ++ PyStr.nl
  ++ "  Impressions: " ++ PyStr.format_comma (impressions m)
  ++ " | Clicks: " ++ PyStr.format_comma (clicks m) ++ " "
  ++ "| CTR: " ++ PyFloat.format_pct 2 (ctr m) ++ PyStr.nl
  ++ "  Cost: " ++ usd cost ++ " | Avg CPC: " ++ usd avg_cpc ++ PyStr.nl
  ++ "  Conversions: " ++ PyFloat.format_f 1 (conversions m) ++ " "
  ++ "| CPA: " ++ usd cpc_conv
  ++ " | ROAS: " ++ PyFloat.format_f 2 roas ++ "x".

(** The running totals of the loop, all started at [0]. *)
Record Totals : Type := {
  total_cost : PyFloat.float;
  total_clicks : Z;
  total_impressions : Z;
  total_conversions : PyFloat.float
}.

Definition no_totals : Totals := {|
  total_cost := PyFloat.zero;
  total_clicks := 0;
  total_impressions := 0;
  total_conversions := PyFloat.zero |}.

Definition add_row (t : Totals) (row : Row) : Totals :=
  let m := metrics row in {|
  total_cost := PyFloat.add (total_cost t) (row_cost m);
  total_clicks := total_clicks t + clicks m;
  total_impressions := total_impressions t + impressions m;
  total_conversions := PyFloat.add (total_conversions t) (conversions m) |}.

Definition summary (date_range : string) (t : Totals) : string :=
  let overall_ctr :=
    if total_impressions t =? 0 then PyFloat.zero
    else PyFloat.int_truediv (total_clicks t) (total_impressions t) in
  "=== Performance Report (" ++ date_range ++ ") ===" ++ PyStr.nl
  ++ "Total Spend: " ++ usd (total_cost t) ++ " | "
  ++ "Clicks: " ++ PyStr.format_comma (total_clicks t) ++ " | "
  ++ "CTR: " ++ PyFloat.format_pct 2 overall_ctr ++ " | "
  ++ "Conversions: " ++ PyFloat.format_f 1 (total_conversions t) ++ PyStr.nl
  ++ PyStr.repeat_char "=" 50 ++ PyStr.nl ++ PyStr.nl.

Definition get_campaign_performance (customer_id date_range : string)
    (campaign_id : option string) : Prog :=
  let query := get_campaign_performance_query in
  let query :=
    match campaign_id with
    | Some id =>
        if PyStr.truthy id then query ++ " AND campaign.id = " ++ id else query
    | None => query
    end in
  match date_filter date_range with
  | inl e => Raise e
  | inr predicate =>
    let query := query ++ predicate in
    let query := query ++ " ORDER BY metrics.cost_micros DESC" in
    Search customer_id query (fun response =>
      match response with
      | GoogleAdsException errors => Return (_format_error errors)
      | Ok rows =>
          let results := map get_campaign_performance_row rows in
          let totals := fold_left add_row rows no_totals in
          match results with
          | [] => Return ("No campaign data found for " ++ date_range ++ ".")
          | _ =>
              Return (summary date_range totals
                      ++ PyStr.join (PyStr.nl ++ PyStr.nl) results)
          end
      end)
  end.

Definition get_ad_group_performance_query
    (campaign_id date_range : string) : string := "
    SELECT
      ad_group.id,
      ad_group.name,
      ad_group.status,
      metrics.impressions,
      metrics.clicks,
      metrics.ctr,
      metrics.average_cpc,
      metrics.cost_micros,
      metrics.conversions
    FROM ad_group
    WHERE campaign.id = " ++ campaign_id ++ "
      AND ad_group.status != 'REMOVED'
      AND segments.date DURING " ++ date_range ++ "
    ORDER BY metrics.cost_micros DESC
  ".

Definition get_ad_group_performance_row (row : Row) : string :=
  let ag := ad_group row in
  let m := metrics row in
  let cost := micros_to_dollars (cost_micros m) in
  let avg_cpc := float_micros_to_dollars (average_cpc m) in
  row_ad_group_name ag ++ " (ID: " ++ PyStr.str_int (row_ad_group_id ag)
  ++ ", " ++ row_ad_group_status ag ++ ")" ++ PyStr.nl
  ++ "  Impressions: " ++ PyStr.format_comma (impressions m)
  ++ " | Clicks: " ++ PyStr.format_comma (clicks m) ++ " "
  ++ "| CTR: " ++ PyFloat.format_pct 2 (ctr m) ++ PyStr.nl
  ++ "  Cost: " ++ usd cost ++ " | Avg CPC: " ++ usd avg_cpc ++ " "
  ++ "| Conversions: " ++ PyFloat.format_f 1 (conversions m).

Definition get_ad_group_performance
    (customer_id campaign_id date_range : string) : Prog :=
  Search customer_id (get_ad_group_performance_query campaign_id date_range)
    (fun response =>
    match response with
    | GoogleAdsException errors => Return (_format_error errors)
    | Ok rows =>
        let results := map get_ad_group_performance_row rows in
        match results with
        | [] =>
            Return ("No ad groups found for campaign " ++ campaign_id ++ ".")
        | _ =>
            Return ("Ad Groups for Campaign " ++ campaign_id
                    ++ " (" ++ date_range ++ "):" ++ PyStr.nl ++ PyStr.nl
                    ++ PyStr.join (PyStr.nl ++ PyStr.nl) results)
        end
    end).

Definition get_search_terms_report_query
    (campaign_id date_range : string) (min_impressions : Z) : string := "
    SELECT
      search_term_view.search_term,
      metrics.impressions,
      metrics.clicks,
      metrics.ctr,
      metrics.cost_micros,
      metrics.conversions
    FROM search_term_view
    WHERE campaign.id = " ++ campaign_id ++ "
      AND segments.date DURING " ++ date_range ++ "
      AND metrics.impressions >= " ++ PyStr.str_int min_impressions ++ "
    ORDER BY metrics.impressions DESC
    LIMIT 50
  ".

Definition dquote : string := String (ascii_of_nat 34) EmptyString.

Definition get_search_terms_report_row (row : Row) : string :=
  let m := metrics row in
  let cost := micros_to_dollars (cost_micros m) in
  let term := search_term row in
  dquote ++ term ++ dquote ++ PyStr.nl
  ++ "  Impressions: " ++ PyStr.format_comma (impressions m)
  ++ " | Clicks: " ++ PyStr.format_comma (clicks m) ++ " "
  ++ "| CTR: " ++ PyFloat.format_pct 2 (ctr m) ++ PyStr.nl
  ++ "  Cost: " ++ usd cost
  ++ " | Conversions: " ++ PyFloat.format_f 1 (conversions m).

Definition get_search_terms_report (customer_id campaign_id date_range : string)
    (min_impressions : Z) : Prog :=
  Search customer_id
    (get_search_terms_report_query campaign_id date_range min_impressions)
    (fun response =>
    match response with
    | GoogleAdsException errors => Return (_format_error errors)
    | Ok rows =>
        let results := map get_search_terms_report_row rows in
        match results with
        | [] =>
            Return ("No search terms found for campaign " ++ campaign_id ++ ".")
        | _ =>
            Return ("Search Terms Report (" ++ date_range ++ "):"
                    ++ PyStr.nl ++ PyStr.nl
                    ++ PyStr.join (PyStr.nl ++ PyStr.nl) results)
        end
    end).

Definition get_geo_performance_query
    (campaign_id date_range : string) : string := "
    SELECT
      geographic_view.country_criterion_id,
      geographic_view.location_type,
      campaign_criterion.location.geo_target_constant,
      metrics.impressions,
      metrics.clicks,
      metrics.ctr,
      metrics.cost_micros,
      metrics.conversions
    FROM geographic_view
    WHERE campaign.id = " ++ campaign_id ++ "
      AND segments.date DURING " ++ date_range ++ "
    ORDER BY metrics.impressions DESC
    LIMIT 20
  ".

Definition get_geo_performance_row (row : Row) : string :=
  let m := metrics row in
  let cost := micros_to_dollars (cost_micros m) in
  let geo := geographic_view row in
  "Location ID: " ++ PyStr.str_int (row_country_criterion_id geo) ++ " "
  ++ "(" ++ row_location_type geo ++ ")" ++ PyStr.nl
  ++ "  Impressions: " ++ PyStr.format_comma (impressions m)
  ++ " | Clicks: " ++ PyStr.format_comma (clicks m) ++ " "
  ++ "| CTR: " ++ PyFloat.format_pct 2 (ctr m) ++ PyStr.nl
  ++ "  Cost: " ++ usd cost
  ++ " | Conversions: " ++ PyFloat.format_f 1 (conversions m).

Definition get_geo_performance
    (customer_id campaign_id date_range : string) : Prog :=
  Search customer_id (get_geo_performance_query campaign_id date_range)
    (fun response =>
    match response with
    | GoogleAdsException errors => Return (_format_error errors)
    | Ok rows =>
        let results := map get_geo_performance_row rows in
        match results with
        | [] => Return ("No geo data found for campaign " ++ campaign_id ++ ".")
        | _ =>
            Return ("Geographic Performance (" ++ date_range ++ "):"
                    ++ PyStr.nl ++ PyStr.nl
                    ++ PyStr.join (PyStr.nl ++ PyStr.nl) results)
        end
    end).

End reporting.

(* ================================================================= *)
(** ** Facts about [split], [join] and [strip] *)

Section SplitJoin.
Variable sep : ascii.

Lemma split_not_nil (s : string) : PyStr.split sep s <> [].
Proof.
  destruct s as [|c s]; simpl; [discriminate|].
  destruct (Ascii.eqb c sep); [discriminate|].
  destruct (PyStr.split sep s); discriminate.
Qed.

(** A text without the separator is one item. *)
Lemma split_without_sep (s : string) :
  PyStr.contains sep s = false -> PyStr.split sep s = [s].
Proof.
  induction s as [|c s IH]; simpl; intros H; [reflexivity|].
  apply orb_false_iff in H as [Hc Hs].
  rewrite Hc, (IH Hs). reflexivity.
Qed.

(** The first separator ends the first item. *)
Lemma split_app_sep (a b : string) :
  PyStr.contains sep a = false ->
  PyStr.split sep (a ++ String sep b) = a :: PyStr.split sep b.
Proof.
  induction a as [|c a IH]; simpl; intros H.
  - rewrite Ascii.eqb_refl. reflexivity.
  - apply orb_false_iff in H as [Hc Ha].
    rewrite Hc, (IH Ha). reflexivity.
Qed.

Lemma contains_app (a b : string) :
  PyStr.contains sep (a ++ b) = PyStr.contains sep a || PyStr.contains sep b.
Proof.
  induction a as [|c a IH]; simpl; [reflexivity|].
  rewrite IH, orb_assoc. reflexivity.
Qed.



(** Splitting a join of separator-free items gives the items back. *)
Lemma split_join (items : list string) :
  items <> [] ->
  Forall (fun item => PyStr.contains sep item = false) items ->
  PyStr.split sep (PyStr.join (String sep EmptyString) items) = items.
Proof.
  unfold PyStr.join.
  induction items as [|x rest IH]; intros Hne Hall; [contradiction|].
  inversion Hall as [|? ? Hx Hrest]; subst.
  destruct rest as [|y rest'].
  - simpl. apply split_without_sep, Hx.
  - change (String.concat (String sep EmptyString) (x :: y :: rest'))
      with (x ++ String sep (String.concat (String sep EmptyString) (y :: rest'))).
    rewrite split_app_sep by exact Hx.
    rewrite IH; [reflexivity|discriminate|exact Hrest].
Qed.

End SplitJoin.







(* ================================================================= *)
(** ** The error formatter *)

Definition newline : ascii := ascii_of_nat 10.

(** The lines of a text. *)
Definition lines (text : string) : list string := PyStr.split newline text.

Definition one_line (message : string) : Prop :=
  PyStr.contains newline message = false.

Lemma error_line_one_line (message : string) :
  one_line message -> one_line ("Error: " ++ message).
Proof.
  unfold one_line. intros H. rewrite contains_app, H. reflexivity.
Qed.

Lemma format_error_lines (errors : list string) :
  errors <> [] ->
  Forall one_line errors ->
  lines (campaigns._format_error errors)
  = "Google Ads API Error:" :: map (fun message => "Error: " ++ message) errors.
Proof.
  intros Hne Hall. unfold lines, campaigns._format_error.
  change ("Google Ads API Error:" ++ PyStr.nl ++ ?t)
    with ("Google Ads API Error:" ++ String newline t).
  rewrite split_app_sep by reflexivity.
  f_equal. apply split_join.
  - destruct errors; [contradiction|discriminate].
  - apply Forall_map. revert Hall. apply Forall_impl.
    exact error_line_one_line.
Qed.

(** C9.  The error formatter renders the messages of a platform exception
    one per line, in the order of the failure payload, below the header line:
    for a non-empty list of single-line messages, the lines of the text are
    the header followed by ["Error: " ++ message] for each message in order.
    The four tool modules carry the same formatter. *)
Theorem format_error_renders_each_message_in_order (errors : list string) :
  errors <> [] ->
  Forall one_line errors ->
  let rendered :=
    "Google Ads API Error:" :: map (fun message => "Error: " ++ message) errors in
  lines (campaigns._format_error errors) = rendered
  /\ lines (reporting._format_error errors) = rendered
  /\ lines (ads._format_error errors) = rendered
  /\ lines (keywords._format_error errors) = rendered.
Proof.
  intros Hne Hall rendered.
  pose proof (format_error_lines errors Hne Hall) as H.
  repeat split; exact H.
Qed.

Lemma format_error_two_messages :
  ["Budget too low"; "Name already in use"] <> []
  /\ Forall one_line ["Budget too low"; "Name already in use"]
  /\ lines (campaigns._format_error ["Budget too low"; "Name already in use"])
     = ["Google Ads API Error:"; "Error: Budget too low";
        "Error: Name already in use"]
  /\ lines (reporting._format_error ["Budget too low"; "Name already in use"])
     = ["Google Ads API Error:"; "Error: Budget too low";
        "Error: Name already in use"].
Proof.
  assert (Hne : ["Budget too low"; "Name already in use"] <> [])
    by discriminate.
  assert (Hall : Forall one_line ["Budget too low"; "Name already in use"])
    by (repeat constructor).
  destruct (format_error_renders_each_message_in_order
              ["Budget too low"; "Name already in use"] Hne Hall)
    as (Hc & Hr & _).
  repeat split; assumption.
Defined.

(* ================================================================= *)
(** ** Update operations and their field masks *)

(** The fields assigned on a message, by their protobuf names. *)
Class Message (E : Type) : Type := {
  assigned : E -> list string
}.

Definition field {A : Type} (name : string) (value : option A) : list string :=
  match value with Some _ => [name] | None => [] end.

Definition repeated {A : Type} (name : string) (values : list A) : list string :=
  match values with [] => [] | _ => [name] end.

#[global] Instance CampaignBudget_message : Message CampaignBudget := {
  assigned b :=
    (field "resource_name" (budget_resource_name b)
     ++ field "name" (budget_name b)
     ++ field "amount_micros" (amount_micros b)
     ++ field "delivery_method" (delivery_method b))%list
}.

#[global] Instance Campaign_message : Message Campaign := {
  assigned c :=
    (field "resource_name" (campaign_resource_name c)
     ++ field "name" (campaign_name c)
     ++ field "campaign_budget" (campaign_budget c)
     ++ field "status" (campaign_status c)
     ++ field "advertising_channel_type" (advertising_channel_type c)
     ++ field "target_spend.target_spend_micros" (target_spend_micros c)
     ++ field "start_date" (start_date c)
     ++ field "end_date" (end_date c))%list
}.

#[global] Instance AdGroup_message : Message AdGroup := {
  assigned g :=
    (field "name" (ad_group_name g)
     ++ field "campaign" (ad_group_campaign g)
     ++ field "status" (ad_group_status g)
     ++ field "type" (ad_group_type g)
     ++ field "cpc_bid_micros" (cpc_bid_micros g))%list
}.

#[global] Instance AdGroupAd_message : Message AdGroupAd := {
  assigned a :=
    (field "resource_name" (ad_resource_name a)
     ++ field "ad_group" (ad_ad_group a)
     ++ field "status" (ad_status a)
     ++ repeated "ad.final_urls" (final_urls a)
     ++ repeated "ad.responsive_search_ad.headlines" (rsa_headlines a)
     ++ repeated "ad.responsive_search_ad.descriptions" (rsa_descriptions a)
     ++ field "ad.responsive_search_ad.path1" (rsa_path1 a)
     ++ field "ad.responsive_search_ad.path2" (rsa_path2 a))%list
}.

#[global] Instance AdGroupCriterion_message : Message AdGroupCriterion := {
  assigned k :=
    (field "ad_group" (criterion_ad_group k)
     ++ field "keyword.text" (keyword_text k)
     ++ field "keyword.match_type" (keyword_match_type k)
     ++ field "status" (criterion_status k)
     ++ field "cpc_bid_micros" (criterion_cpc_bid_micros k))%list
}.

#[global] Instance CampaignCriterion_message : Message CampaignCriterion := {
  assigned k :=
    (field "campaign" (criterion_campaign k)
     ++ field "negative" (negative k)
     ++ field "keyword.text" (negative_keyword_text k)
     ++ field "keyword.match_type" (negative_match_type k))%list
}.






(** Case analysis on everything a tool can send. *)
Ltac sends_inv :=
  repeat match goal with
  | H : Sends (Return _) _ |- _ => inversion H
  | H : Sends (Raise _) _ |- _ => inversion H
  | H : Sends (Search _ _ _) _ |- _ => inversion H; subst; clear H
  | H : Sends (Mutate _ _ _) _ |- _ => inversion H; subst; clear H
  | H : Sends ((fun _ => _) _) _ |- _ => cbv beta in H
  | H : Sends (match ?x with _ => _ end) _ |- _ => destruct x eqn:?
  end.


Section FieldMasks.
Variable client : Client.



End FieldMasks.


(** The path formats of the client library, for the worked examples. *)
Definition google_ads_client : Client := {|
  campaign_path customer_id campaign_id :=
    "customers/" ++ customer_id ++ "/campaigns/" ++ campaign_id;
  ad_group_path customer_id ad_group_id :=
    "customers/" ++ customer_id ++ "/adGroups/" ++ ad_group_id;
  ad_group_ad_path customer_id ad_group_id ad_id :=
    "customers/" ++ customer_id ++ "/adGroupAds/" ++ ad_group_id ++ "~" ++ ad_id
|}.




(* ================================================================= *)
(** ** Status validation *)








Section StatusValidation.
Variable client : Client.
Variables customer_id campaign_id ad_group_id ad_id : string.



End StatusValidation.

Lemma return_is_local (text : string) : local (Return text).
Proof. intros r H. inversion H. Qed.

Lemma raise_is_local (e : PyExn) : local (Raise e).
Proof. intros r H. inversion H. Qed.

Lemma append_assoc (a b c : string) : (a ++ b) ++ c = a ++ b ++ c.
Proof.
  induction a as [|x a IH]; simpl; [reflexivity|].
  rewrite IH. reflexivity.
Qed.





(* ================================================================= *)
(** ** Delimited list arguments *)

Lemma for_each_pure {A B : Type} (f : A -> B) (items : list A) :
  for_each (fun x => inr (f x)) items = inr (map f items).
Proof.
  induction items as [|x rest IH]; simpl; [reflexivity|].
  rewrite IH. reflexivity.
Qed.

Lemma map_not_nil {A B : Type} (f : A -> B) (l : list A) :
  l <> [] -> map f l <> [].
Proof. destruct l; [contradiction|discriminate]. Qed.

(** The keyword operations of the two keyword tools, for one item. *)
Definition keyword_op (ad_group : string) (matching : MatchType)
    (bid : option Z) (keyword : string) : Operation AdGroupCriterion :=
  Create {|
    criterion_ad_group := Some ad_group;
    keyword_text := Some keyword;
    keyword_match_type := Some matching;
    criterion_status := Some ENABLED;
    criterion_cpc_bid_micros := bid |}.

Definition negative_keyword_op (campaign : string) (keyword : string)
    : Operation CampaignCriterion :=
  Create {|
    criterion_campaign := Some campaign;
    negative := Some true;
    negative_keyword_text := Some keyword;
    negative_match_type := Some BROAD |}.





(* ================================================================= *)
(** ** Date ranges of the campaign report *)

Lemma append_empty (s : string) : s ++ EmptyString = s.
Proof.
  induction s as [|c s IH]; simpl; [reflexivity|].
  rewrite IH. reflexivity.
Qed.

(** The optional campaign predicate of [get_campaign_performance]. *)
Definition campaign_predicate (campaign_id : option string) : string :=
  match campaign_id with
  | Some id => if PyStr.truthy id then " AND campaign.id = " ++ id else ""
  | None => ""
  end.

Lemma campaign_performance_query (customer_id date_range : string)
    (campaign_id : option string) (predicate : string) :
  reporting.date_filter date_range = inr predicate ->
  exists k,
    reporting.get_campaign_performance customer_id date_range campaign_id
    = Search customer_id
        (reporting.get_campaign_performance_query
         ++ campaign_predicate campaign_id
         ++ predicate
         ++ " ORDER BY metrics.cost_micros DESC") k.
Proof.
  intros Hd. unfold reporting.get_campaign_performance. rewrite Hd.
  unfold campaign_predicate.
  destruct campaign_id as [id|]; [destruct (PyStr.truthy id)|];
    rewrite ?append_assoc; cbn [append]; eexists; reflexivity.
Qed.

Lemma date_filter_pair (start end_ : string) :
  PyStr.contains "," start = false ->
  PyStr.contains "," end_ = false ->
  reporting.date_filter (start ++ "," ++ end_)
  = inr (" AND segments.date >= '" ++ PyStr.strip start ++ "'"
         ++ " AND segments.date <= '" ++ PyStr.strip end_ ++ "'").
Proof.
  intros Hs He. unfold reporting.date_filter.
  rewrite contains_app. cbn [append PyStr.contains].
  rewrite Ascii.eqb_refl, orb_true_r.
  rewrite split_app_sep by exact Hs.
  rewrite split_without_sep by exact He.
  reflexivity.
Qed.

Lemma date_filter_three_parts (a b rest : string) :
  PyStr.contains "," a = false ->
  PyStr.contains "," b = false ->
  reporting.date_filter (a ++ "," ++ b ++ "," ++ rest) = inl ValueError.
Proof.
  intros Ha Hb. unfold reporting.date_filter.
  rewrite contains_app. cbn [append PyStr.contains].
  rewrite Ascii.eqb_refl, orb_true_r.
  rewrite split_app_sep by exact Ha.
  rewrite split_app_sep by exact Hb.
  pose proof (split_not_nil "," rest) as Hne.
  destruct (PyStr.split "," rest); [contradiction|reflexivity].
Qed.

(** What the claim asks of a pair, in the claim's own words: two ISO
    dates ([YYYY-MM-DD]) in ascending order. *)
Definition is_digit (c : ascii) : bool :=
  let n := nat_of_ascii c in ((48 <=? n) && (n <=? 57))%nat.

Definition claimed_iso_date (s : string) : bool :=
  match list_ascii_of_string s with
  | [y1; y2; y3; y4; d1; m1; m2; d2; a1; a2] =>
      forallb is_digit [y1; y2; y3; y4; m1; m2; a1; a2]
      && Ascii.eqb d1 "-" && Ascii.eqb d2 "-"
  | _ => false
  end.

Definition claimed_valid_pair (start end_ : string) : bool :=
  claimed_iso_date start && claimed_iso_date end_ && String.leb start end_.

(** C5, as the code has it.  A date range holding exactly one comma is
    cut at the comma and both parts, trimmed, become the inclusive bounds of
    the query that is sent, whatever they are: the tool checks neither their
    format nor their order.  A range holding two commas or more makes the
    unpacking raise [ValueError] before anything is sent. *)
Theorem explicit_date_pair_is_forwarded_unchecked
    (customer_id start end_ rest : string) (campaign_id : option string) :
  PyStr.contains "," start = false ->
  PyStr.contains "," end_ = false ->
  (exists k,
     reporting.get_campaign_performance customer_id (start ++ "," ++ end_)
       campaign_id
     = Search customer_id
         (reporting.get_campaign_performance_query
          ++ campaign_predicate campaign_id
          ++ " AND segments.date >= '" ++ PyStr.strip start ++ "'"
          ++ " AND segments.date <= '" ++ PyStr.strip end_ ++ "'"
          ++ " ORDER BY metrics.cost_micros DESC") k)
  /\ reporting.get_campaign_performance customer_id
       (start ++ "," ++ end_ ++ "," ++ rest) campaign_id
     = Raise ValueError.
Proof.
  intros Hs He. split.
  - destruct (campaign_performance_query customer_id (start ++ "," ++ end_)
                campaign_id _ (date_filter_pair start end_ Hs He)) as [k Hk].
    exists k. rewrite Hk. rewrite !append_assoc. reflexivity.
  - unfold reporting.get_campaign_performance.
    rewrite (date_filter_three_parts start end_ rest Hs He). reflexivity.
Qed.

Lemma descending_pair_forwarded :
  PyStr.contains "," "2024-01-31" = false
  /\ PyStr.contains "," " 2024-01-01" = false
  /\ (exists k,
        reporting.get_campaign_performance "1234567890"
          "2024-01-31, 2024-01-01" None
        = Search "1234567890"
            (reporting.get_campaign_performance_query
             ++ " AND segments.date >= '2024-01-31'"
             ++ " AND segments.date <= '2024-01-01'"
             ++ " ORDER BY metrics.cost_micros DESC") k)
  /\ reporting.get_campaign_performance "1234567890"
       "2024-01-31, 2024-01-01,2024-02-01" None
     = Raise ValueError.
Proof.
  assert (Hs : PyStr.contains "," "2024-01-31" = false) by reflexivity.
  assert (He : PyStr.contains "," " 2024-01-01" = false) by reflexivity.
  split; [exact Hs|]. split; [exact He|].
  exact (explicit_date_pair_is_forwarded_unchecked "1234567890" "2024-01-31"
           " 2024-01-01" "2024-02-01" None Hs He).
Defined.

(** The claim as written fails: a pair whose end precedes its start, and a
    pair of words that are no dates, are both sent to the platform. *)
Lemma invalid_date_pairs_reach_platform :
  claimed_valid_pair "2024-01-31" "2024-01-01" = false
  /\ Sends (reporting.get_campaign_performance "1234567890"
              "2024-01-31,2024-01-01" None)
       (SearchRequest "1234567890"
          (reporting.get_campaign_performance_query
           ++ " AND segments.date >= '2024-01-31'"
           ++ " AND segments.date <= '2024-01-01'"
           ++ " ORDER BY metrics.cost_micros DESC"))
  /\ claimed_valid_pair "soon" "later" = false
  /\ Sends (reporting.get_campaign_performance "1234567890" "soon,later" None)
       (SearchRequest "1234567890"
          (reporting.get_campaign_performance_query
           ++ " AND segments.date >= 'soon'"
           ++ " AND segments.date <= 'later'"
           ++ " ORDER BY metrics.cost_micros DESC"))
  /\ ~ local (reporting.get_campaign_performance "1234567890"
                "2024-01-31,2024-01-01" None).
Proof.
  repeat match goal with |- _ /\ _ => split end.
  - reflexivity.
  - apply sends_search.
  - reflexivity.
  - apply sends_search.
  - intros Hlocal. eapply Hlocal. apply sends_search.
Qed.

(* ================================================================= *)
(** ** Dollars to micros *)

(** Rounding keeps the sign it is given. *)
Lemma binary_round_aux_sign (sx : bool) (mx ex : Z) (lx : location) :
  match binary_round_aux PyFloat.prec PyFloat.emax sx mx ex lx with
  | S754_nan => True
  | r => PyFloat.sign r = sx
  end.
Proof.
  unfold binary_round_aux.
  destruct (shr_fexp PyFloat.prec PyFloat.emax mx ex lx) as [mrs' e'].
  destruct (shr_fexp PyFloat.prec PyFloat.emax
              (round_nearest_even (shr_m mrs') (loc_of_shr_record mrs')) e'
              loc_Exact) as [mrs'' e''].
  destruct (shr_m mrs'') as [|m|m]; [reflexivity| |exact I].
  destruct (e'' <=? PyFloat.emax - PyFloat.prec); reflexivity.
Qed.






(** The payloads [create_campaign] builds. *)
Definition new_budget (name : string) (micros : Z) : CampaignBudget := {|
  budget_resource_name := None;
  budget_name := Some (name ++ " Budget");
  amount_micros := Some micros;
  delivery_method := Some STANDARD |}.

Definition new_campaign (name budget_resource : string) (channel : Channel)
    (start end_ : option string) : Campaign := {|
  campaign_resource_name := None;
  campaign_name := Some name;
  campaign_budget := Some budget_resource;
  campaign_status := Some PAUSED;
  advertising_channel_type := Some channel;
  target_spend_micros := Some 0;
  start_date := campaigns.date_field start;
  end_date := campaigns.date_field end_ |}.

(** The two steps of [create_campaign]: the budget goes first, and the
    campaign is built from the resource name of the first result. *)
Lemma create_campaign_steps (customer_id name : string)
    (dollars : PyFloat.float) (channel_type : string)
    (start end_ : option string) (micros : Z) :
  dollars_to_micros dollars = inr micros ->
  exists k,
    campaigns.create_campaign customer_id name dollars channel_type start end_
    = Mutate customer_id
        (mutate_campaign_budgets [Create (new_budget name micros)]) k
    /\ forall budget_resource others,
         exists k',
           k (Ok (budget_resource :: others))
           = Mutate customer_id
               (mutate_campaigns
                  [Create (new_campaign name budget_resource
                             (campaigns.channel_of channel_type) start end_)])
               k'.
Proof.
  intros Hm. unfold campaigns.create_campaign. rewrite Hm.
  eexists. split; [reflexivity|].
  intros budget_resource others. eexists. reflexivity.
Qed.

Lemma create_campaign_sends (customer_id name : string)
    (dollars : PyFloat.float) (channel_type : string)
    (start end_ : option string) (r : Request) :
  Sends (campaigns.create_campaign customer_id name dollars channel_type
           start end_) r ->
  exists micros,
    dollars_to_micros dollars = inr micros
    /\ (r = MutateRequest customer_id
              (mutate_campaign_budgets [Create (new_budget name micros)])
        \/ exists budget_resource,
             r = MutateRequest customer_id
                   (mutate_campaigns
                      [Create (new_campaign name budget_resource
                                 (campaigns.channel_of channel_type)
                                 start end_)])).
Proof.
  unfold campaigns.create_campaign. intros H.
  destruct (dollars_to_micros dollars) as [e|micros] eqn:Hm;
    [inversion H|].
  exists micros. split; [reflexivity|].
  sends_inv.
  - left. reflexivity.
  - right. unfold first_result in *.
    destruct value as [|budget_resource others]; [discriminate|].
    match goal with H : inr _ = inr _ |- _ => injection H as <- end.
    exists budget_resource. reflexivity.
Qed.

(* ================================================================= *)
(** ** Negative amounts *)

Definition new_ad_group (name campaign : string) (micros : Z) : AdGroup := {|
  ad_group_name := Some name;
  ad_group_campaign := Some campaign;
  ad_group_status := Some ENABLED;
  ad_group_type := Some SEARCH_STANDARD;
  cpc_bid_micros := Some micros |}.





(** A row of the budget lookup. *)
Definition no_metrics : MetricsRow := {|
  impressions := 0; clicks := 0; ctr := PyFloat.zero;
  average_cpc := PyFloat.zero; cost_micros := 0; conversions := PyFloat.zero;
  conversions_value := PyFloat.zero; cost_per_conversion := PyFloat.zero |}.

Definition budget_lookup_row (budget_resource : string) : Row := {|
  campaign := {|
    row_campaign_id := 0; row_campaign_name := ""; row_campaign_status := "";
    row_channel := ""; row_bidding_strategy := ""; row_start_date := "";
    row_end_date := ""; row_campaign_budget := budget_resource |};
  budget_amount_micros := 0;
  metrics := no_metrics;
  ad_group := {| row_ad_group_id := 0; row_ad_group_name := "";
                 row_ad_group_status := "" |};
  ad_group_ad := {| row_ad_id := 0; row_ad_type := ""; row_ad_status := "";
                    row_ad_headlines := [] |};
  ad_group_criterion := {|
    row_criterion_id := 0; row_keyword_text := ""; row_match_type := "";
    row_criterion_status := ""; row_effective_cpc_bid_micros := 0;
    row_quality_score := 0 |};
  search_term := "";
  geographic_view := {| row_country_criterion_id := 0;
                        row_location_type := "" |} |}.



(* ================================================================= *)
(** ** Creating a campaign *)

(** [50.00] *)
Definition fifty_dollars : PyFloat.float := PyFloat.literal 5000 2.

Lemma fifty_dollars_in_micros : dollars_to_micros fifty_dollars = inr 50000000.
Proof. vm_compute. reflexivity. Qed.

(** The campaign operations of a request are creations in PAUSED status. *)
Definition created_paused (op : Operation Campaign) : Prop :=
  match op with
  | Create c => campaign_status c = Some PAUSED
  | Update _ _ => False
  end.

Definition campaigns_created_paused (r : Request) : Prop :=
  match r with
  | MutateRequest _ (mutate_campaigns ops) => Forall created_paused ops
  | _ => True
  end.

(** C7.  Creating a campaign with a daily budget of $50.00 and channel
    ["search"] first sends one budget creation whose amount is exactly
    50000000 micros, and then, built on the budget's resource name, one
    campaign creation in PAUSED status on the SEARCH channel.  The tool takes
    no status argument: whatever the arguments, every campaign operation it
    sends is a creation in PAUSED status. *)
Theorem create_campaign_fifty_dollars_search
    (customer_id name : string) (start end_ : option string) :
  (exists k,
     campaigns.create_campaign customer_id name fifty_dollars "search"
       start end_
     = Mutate customer_id
         (mutate_campaign_budgets [Create (new_budget name 50000000)]) k
     /\ amount_micros (new_budget name 50000000) = Some 50000000
     /\ forall budget_resource others,
          exists k',
            k (Ok (budget_resource :: others))
            = Mutate customer_id
                (mutate_campaigns
                   [Create (new_campaign name budget_resource SEARCH
                              start end_)]) k'
            /\ campaign_status
                 (new_campaign name budget_resource SEARCH start end_)
               = Some PAUSED)
  /\ forall dollars channel_type r,
       Sends (campaigns.create_campaign customer_id name dollars channel_type
                start end_) r ->
       campaigns_created_paused r.
Proof.
  split.
  - destruct (create_campaign_steps customer_id name fifty_dollars "search"
                start end_ 50000000 fifty_dollars_in_micros) as (k & Hk & Hnext).
    exists k. split; [exact Hk|]. split; [reflexivity|].
    intros budget_resource others.
    destruct (Hnext budget_resource others) as [k' Hk'].
    exists k'. split; [exact Hk'|reflexivity].
  - intros dollars channel_type r H.
    destruct (create_campaign_sends _ _ _ _ _ _ _ H)
      as (micros & _ & [->|[budget_resource ->]]).
    + exact I.
    + constructor; [reflexivity|constructor].
Qed.

Lemma create_campaign_fifty_dollars_run :
  Sends (campaigns.create_campaign "1234567890" "Rain" fifty_dollars "search"
           None None)
    (MutateRequest "1234567890"
       (mutate_campaign_budgets [Create (new_budget "Rain" 50000000)]))
  /\ campaigns_created_paused
       (MutateRequest "1234567890"
          (mutate_campaign_budgets [Create (new_budget "Rain" 50000000)])).
Proof.
  assert (H : Sends (campaigns.create_campaign "1234567890" "Rain"
                       fifty_dollars "search" None None)
                (MutateRequest "1234567890"
                   (mutate_campaign_budgets
                      [Create (new_budget "Rain" 50000000)]))).
  { unfold campaigns.create_campaign. rewrite fifty_dollars_in_micros.
    apply sends_mutate. }
  split; [exact H|].
  destruct (create_campaign_fifty_dollars_search "1234567890" "Rain" None None)
    as [_ Hall].
  exact (Hall fifty_dollars "search" _ H).
Defined.

(** A platform that accepts every mutation. *)
Definition obliging_platform : Platform := {|
  answer_search _ _ := Ok [];
  answer_mutate _ operations :=
    match operations with
    | mutate_campaign_budgets _ =>
        Ok ["customers/1234567890/campaignBudgets/8"]
    | _ => Ok ["customers/1234567890/campaigns/42"]
    end
|}.

Example create_campaign_against_obliging_platform :
  run obliging_platform
    (campaigns.create_campaign "1234567890" "Rain" fifty_dollars "search"
       (Some "2024-03-01") None)
  = ([MutateRequest "1234567890"
        (mutate_campaign_budgets [Create (new_budget "Rain" 50000000)]);
      MutateRequest "1234567890"
        (mutate_campaigns
           [Create {|
              campaign_resource_name := None;
              campaign_name := Some "Rain";
              campaign_budget := Some "customers/1234567890/campaignBudgets/8";
              campaign_status := Some PAUSED;
              advertising_channel_type := Some SEARCH;
              target_spend_micros := Some 0;
              start_date := Some "20240301";
              end_date := None |}])],
     Returned "Campaign created successfully!
  Name: Rain
  Resource: customers/1234567890/campaigns/42
  Channel: search
  Daily Budget: $50.00
  Status: PAUSED (enable when ready)
  Start: 2024-03-01
  End: Not set").
Proof. vm_compute. reflexivity. Qed.

(* ================================================================= *)
(** ** The channel fallback *)





(* ================================================================= *)
(** ** Dollars to micros and back *)













(* ================================================================= *)
(** ** Money crossing the boundary *)

Definition entity_of {E : Type} (op : Operation E) : E :=
  match op with Create e | Update e _ => e end.

Definition assigned_amounts {E : Type} (amount : E -> option Z)
    (ops : list (Operation E)) : list Z :=
  flat_map (fun op => match amount (entity_of op) with
                      | Some micros => [micros]
                      | None => []
                      end) ops.

(** Every monetary field assigned in the operations of a request. *)
Definition request_micros (r : Request) : list Z :=
  match r with
  | SearchRequest _ _ => []
  | MutateRequest _ (mutate_campaign_budgets ops) =>
      assigned_amounts amount_micros ops
  | MutateRequest _ (mutate_campaigns ops) =>
      assigned_amounts target_spend_micros ops
  | MutateRequest _ (mutate_ad_groups ops) =>
      assigned_amounts cpc_bid_micros ops
  | MutateRequest _ (mutate_ad_group_criteria ops) =>
      assigned_amounts criterion_cpc_bid_micros ops
  | MutateRequest _ (mutate_ad_group_ads _) => []
  | MutateRequest _ (mutate_campaign_criteria _) => []
  end.



Lemma for_each_raises {A B : Type} (e : PyExn) (items : list A) :
  for_each (fun _ : A => @inl PyExn B e) items
  = match items with [] => inr [] | _ => inl e end.
Proof. destruct items; reflexivity. Qed.


Lemma negative_keyword_amounts (campaign : string) (items : list string) :
  request_micros
    (MutateRequest campaign
       (mutate_campaign_criteria (map (negative_keyword_op campaign) items)))
  = [].
Proof. reflexivity. Qed.

Section MoneyInRequests.
Variable client : Client.
Variables customer_id parent_id name : string.
Variable dollars : PyFloat.float.







End MoneyInRequests.


Ltac ends_locally :=
  intros reply; destruct reply as [rows|errors];
  [destruct rows|]; simpl;
  auto using return_is_local, raise_is_local.


(* ================================================================= *)
(** ** Money shown to the caller *)

(** [piece] occurs in [text]. *)
Definition shows (text piece : string) : Prop :=
  exists before after, text = before ++ piece ++ after.









Lemma shows_here (piece after : string) : shows (piece ++ after) piece.
Proof. exists EmptyString, after. reflexivity. Qed.

Lemma shows_skip (a text piece : string) :
  shows text piece -> shows (a ++ text) piece.
Proof.
  intros (before & after & ->). exists (a ++ before), after.
  rewrite append_assoc. reflexivity.
Qed.

Lemma shows_char (c : ascii) (text piece : string) :
  shows text piece -> shows (String c text) piece.
Proof.
  intros (before & after & ->). exists (String c before), after. reflexivity.
Qed.

(** Looking for an occurrence from left to right. *)
Ltac find_shown :=
  cbv zeta; rewrite ?append_assoc; cbn [append];
  repeat first
    [ solve [exists EmptyString; eexists; cbn [append]; reflexivity]
    | solve [exists EmptyString, EmptyString; cbn [append];
             rewrite append_empty; reflexivity]
    | apply shows_char
    | apply shows_skip ].

Section MoneyInReports.
Variable row : Row.









End MoneyInReports.

(** The total spend of the campaign report is the binary64 sum, in row
    order and from zero, of the dollar costs of the rows. *)
Lemma total_cost_is_sum_of_dollars (rows : list Row) (t : reporting.Totals) :
  reporting.total_cost (fold_left reporting.add_row rows t)
  = fold_left (fun total row =>
                 PyFloat.add total
                   (micros_to_dollars (cost_micros (metrics row))))
      rows (reporting.total_cost t).
Proof.
  revert t. induction rows as [|row rows IH]; intros t; [reflexivity|].
  simpl. rewrite IH. reflexivity.
Qed.









Section ReportTexts.
Variables customer_id parent_id date_range text : string.










End ReportTexts.

(** Each block of a report occurs in the report. *)
Lemma shows_trans (text middle piece : string) :
  shows text middle -> shows middle piece -> shows text piece.
Proof.
  intros (b1 & a1 & ->) (b2 & a2 & ->).
  exists (b1 ++ b2), (a2 ++ a1).
  rewrite !append_assoc. reflexivity.
Qed.

Lemma joined_block_shown (sep : string) (blocks : list string)
    (block : string) :
  In block blocks -> shows (PyStr.join sep blocks) block.
Proof.
  unfold PyStr.join.
  induction blocks as [|b rest IH]; intros Hin; [contradiction|].
  destruct rest as [|b' rest'].
  - destruct Hin as [->|[]]. exists EmptyString, EmptyString.
    simpl. rewrite append_empty. reflexivity.
  - change (String.concat sep (b :: b' :: rest'))
      with (b ++ sep ++ String.concat sep (b' :: rest')).
    destruct Hin as [->|Hin].
    + apply shows_here.
    + apply shows_skip, shows_skip, IH, Hin.
Qed.

Lemma report_shows_each_block (block : Row -> string) (nothing text : string)
    (header : string) (rows : list Row) (row : Row) :
  text = header ++ PyStr.join (PyStr.nl ++ PyStr.nl) (map block rows) ->
  In row rows ->
  shows text (block row).
Proof.
  intros -> Hin. apply shows_skip, joined_block_shown, in_map, Hin.
Qed.

(** The confirmations of the tools that take an amount. *)
Section Confirmations.
Variable client : Client.
Variables customer_id parent_id name text : string.
Variable dollars : PyFloat.float.




End Confirmations.


(** [12.345678] dollars, as the platform reports them. *)
Definition twelve_dollars_and_a_third : PyFloat.float :=
  micros_to_dollars 12345678.


Example twelve_dollars_text : usd twelve_dollars_and_a_third = "$12.35".
Proof. vm_compute. reflexivity. Qed.

(* ================================================================= *)
(** ** Platform failures surface, and nothing follows them *)

(** At every platform call of the program, a raised [GoogleAdsException]
    ends the tool with the formatted messages. *)
Inductive surfaces_failures : Prog -> Prop :=
| surfaces_return text : surfaces_failures (Return text)
| surfaces_raise e : surfaces_failures (Raise e)
| surfaces_search cid q k :
    (forall errors,
       k (GoogleAdsException errors)
       = Return (campaigns._format_error errors)) ->
    (forall rows, surfaces_failures (k (Ok rows))) ->
    surfaces_failures (Search cid q k)
| surfaces_mutate cid ops k :
    (forall errors,
       k (GoogleAdsException errors)
       = Return (campaigns._format_error errors)) ->
    (forall results, surfaces_failures (k (Ok results))) ->
    surfaces_failures (Mutate cid ops k).

(** The messages a stub raises on a request, if it raises. *)
Definition failure_of (pf : Platform) (r : Request) : option (list string) :=
  match r with
  | SearchRequest cid q =>
      match answer_search pf cid q with
      | GoogleAdsException errors => Some errors
      | Ok _ => None
      end
  | MutateRequest cid ops =>
      match answer_mutate pf cid ops with
      | GoogleAdsException errors => Some errors
      | Ok _ => None
      end
  end.

(** Against the stub, a request the platform refuses is the last one sent,
    and the tool returns its messages. *)
Definition fail_stop (pf : Platform) (p : Prog) : Prop :=
  forall before r after errors,
    fst (run pf p) = (before ++ r :: after)%list ->
    failure_of pf r = Some errors ->
    after = [] /\ snd (run pf p) = Returned (campaigns._format_error errors).

Lemma run_search (pf : Platform) (cid q : string)
    (k : Reply (list Row) -> Prog) :
  run pf (Search cid q k)
  = (SearchRequest cid q :: fst (run pf (k (answer_search pf cid q))),
     snd (run pf (k (answer_search pf cid q)))).
Proof. simpl. destruct (run pf (k (answer_search pf cid q))). reflexivity. Qed.

Lemma run_mutate (pf : Platform) (cid : string) (ops : Operations)
    (k : Reply (list string) -> Prog) :
  run pf (Mutate cid ops k)
  = (MutateRequest cid ops :: fst (run pf (k (answer_mutate pf cid ops))),
     snd (run pf (k (answer_mutate pf cid ops)))).
Proof.
  simpl. destruct (run pf (k (answer_mutate pf cid ops))). reflexivity.
Qed.

Lemma fail_stop_step (pf : Platform) (r0 : Request)
    (sent : list Request) (out : Outcome) :
  (forall errors,
     failure_of pf r0 = Some errors ->
     sent = [] /\ out = Returned (campaigns._format_error errors)) ->
  (failure_of pf r0 = None ->
   forall before r after errors,
     sent = (before ++ r :: after)%list ->
     failure_of pf r = Some errors ->
     after = [] /\ out = Returned (campaigns._format_error errors)) ->
  forall before r after errors,
    r0 :: sent = (before ++ r :: after)%list ->
    failure_of pf r = Some errors ->
    after = [] /\ out = Returned (campaigns._format_error errors).
Proof.
  intros Hfail Hok before r after errors Hsplit Hr.
  destruct before as [|b before]; simpl in Hsplit.
  - injection Hsplit as <- <-.
    destruct (Hfail errors Hr) as [-> ->]. split; reflexivity.
  - injection Hsplit as Hb Hs. subst b sent.
    destruct (failure_of pf r0) as [errors0|] eqn:Hb.
    + destruct (Hfail errors0 eq_refl) as [Hnil _].
      destruct before; discriminate Hnil.
    + eapply Hok; [reflexivity|reflexivity|exact Hr].
Qed.

Lemma surfaces_failures_fail_stop (pf : Platform) (p : Prog) :
  surfaces_failures p -> fail_stop pf p.
Proof.
  induction 1 as [text|e|cid q k Herr _ IH|cid ops k Herr _ IH];
    unfold fail_stop in *.
  - intros [|b before] r after errors Hs; discriminate Hs.
  - intros [|b before] r after errors Hs; discriminate Hs.
  - rewrite run_search. cbn [fst snd].
    apply (fail_stop_step pf (SearchRequest cid q)).
    + intros errors Hf. simpl in Hf.
      destruct (answer_search pf cid q) as [rows|errors0]; [discriminate|].
      injection Hf as ->. rewrite Herr. split; reflexivity.
    + intros Hf. simpl in Hf.
      destruct (answer_search pf cid q) as [rows|errors0]; [|discriminate].
      apply IH.
  - rewrite run_mutate. cbn [fst snd].
    apply (fail_stop_step pf (MutateRequest cid ops)).
    + intros errors Hf. simpl in Hf.
      destruct (answer_mutate pf cid ops) as [results|errors0]; [discriminate|].
      injection Hf as ->. rewrite Herr. split; reflexivity.
    + intros Hf. simpl in Hf.
      destruct (answer_mutate pf cid ops) as [results|errors0]; [|discriminate].
      apply IH.
Qed.

Ltac surfaces :=
  repeat first
    [ apply surfaces_return
    | apply surfaces_raise
    | apply surfaces_search; [intros; reflexivity|intros ?]
    | apply surfaces_mutate; [intros; reflexivity|intros ?]
    | progress cbv beta
    | match goal with
      | |- surfaces_failures (match ?x with _ => _ end) => destruct x
      | |- surfaces_failures (if ?x then _ else _) => destruct x
      end ].

Section FailuresSurface.
Variable client : Client.
Variables customer_id parent_id ad_id name channel_type keywords match_type
  new_status headlines descriptions final_url date_range : string.
Variables start end_ path1 path2 status_filter campaign_id : option string.
Variable min_impressions : Z.
Variable dollars : PyFloat.float.
Variable cpc_bid_dollars : option PyFloat.float.

Lemma campaigns_surface_failures :
  surfaces_failures (campaigns.list_campaigns customer_id status_filter)
  /\ surfaces_failures (campaigns.get_campaign customer_id parent_id)
  /\ surfaces_failures
       (campaigns.create_campaign customer_id name dollars channel_type
          start end_)
  /\ surfaces_failures
       (campaigns.update_campaign_status client customer_id parent_id
          new_status)
  /\ surfaces_failures
       (campaigns.update_campaign_budget customer_id parent_id dollars).
Proof.
  unfold campaigns.list_campaigns, campaigns.get_campaign,
    campaigns.create_campaign, campaigns.update_campaign_status,
    campaigns.update_campaign_budget.
  repeat split; surfaces.
Qed.

Lemma ads_surface_failures :
  surfaces_failures
    (ads.create_ad_group client customer_id parent_id name dollars)
  /\ surfaces_failures
       (ads.create_responsive_search_ad client customer_id parent_id
          headlines descriptions final_url path1 path2)
  /\ surfaces_failures (ads.list_ads customer_id parent_id status_filter)
  /\ surfaces_failures
       (ads.update_ad_status client customer_id parent_id ad_id new_status).
Proof.
  unfold ads.create_ad_group, ads.create_responsive_search_ad, ads.list_ads,
    ads.update_ad_status.
  repeat split; surfaces.
Qed.

Lemma keywords_surface_failures :
  surfaces_failures
    (keywords.list_keywords customer_id parent_id status_filter)
  /\ surfaces_failures
       (keywords.add_keywords client customer_id parent_id keywords match_type
          cpc_bid_dollars)
  /\ surfaces_failures
       (keywords.add_negative_keywords client customer_id parent_id keywords)
  /\ surfaces_failures
       (keywords.get_keyword_performance customer_id parent_id date_range).
Proof.
  unfold keywords.list_keywords, keywords.add_keywords,
    keywords.add_negative_keywords, keywords.get_keyword_performance.
  repeat split; surfaces.
Qed.

Lemma reporting_surface_failures :
  surfaces_failures
    (reporting.get_campaign_performance customer_id date_range campaign_id)
  /\ surfaces_failures
       (reporting.get_ad_group_performance customer_id parent_id date_range)
  /\ surfaces_failures
       (reporting.get_search_terms_report customer_id parent_id date_range
          min_impressions)
  /\ surfaces_failures
       (reporting.get_geo_performance customer_id parent_id date_range).
Proof.
  unfold reporting.get_campaign_performance,
    reporting.get_ad_group_performance, reporting.get_search_terms_report,
    reporting.get_geo_performance.
  repeat split; surfaces.
Qed.

End FailuresSurface.

(** X1.  Whatever the platform answers, a request it refuses with
    [GoogleAdsException] is the last request the tool sends, and the tool
    returns the formatted messages of that exception: no tool retries,
    swallows the failure or goes on after it. *)
Theorem platform_failure_ends_every_tool
    (pf : Platform) (client : Client)
    (customer_id parent_id ad_id name channel_type keywords match_type
       new_status headlines descriptions final_url date_range : string)
    (start end_ path1 path2 status_filter campaign_id : option string)
    (min_impressions : Z)
    (dollars : PyFloat.float) (cpc_bid_dollars : option PyFloat.float) :
  fail_stop pf (campaigns.list_campaigns customer_id status_filter)
  /\ fail_stop pf (campaigns.get_campaign customer_id parent_id)
  /\ fail_stop pf
       (campaigns.create_campaign customer_id name dollars channel_type
          start end_)
  /\ fail_stop pf
       (campaigns.update_campaign_status client customer_id parent_id
          new_status)
  /\ fail_stop pf
       (campaigns.update_campaign_budget customer_id parent_id dollars)
  /\ fail_stop pf
       (ads.create_ad_group client customer_id parent_id name dollars)
  /\ fail_stop pf
       (ads.create_responsive_search_ad client customer_id parent_id
          headlines descriptions final_url path1 path2)
  /\ fail_stop pf (ads.list_ads customer_id parent_id status_filter)
  /\ fail_stop pf
       (ads.update_ad_status client customer_id parent_id ad_id new_status)
  /\ fail_stop pf (keywords.list_keywords customer_id parent_id status_filter)
  /\ fail_stop pf
       (keywords.add_keywords client customer_id parent_id keywords match_type
          cpc_bid_dollars)
  /\ fail_stop pf
       (keywords.add_negative_keywords client customer_id parent_id keywords)
  /\ fail_stop pf
       (keywords.get_keyword_performance customer_id parent_id date_range)
  /\ fail_stop pf
       (reporting.get_campaign_performance customer_id date_range campaign_id)
  /\ fail_stop pf
       (reporting.get_ad_group_performance customer_id parent_id date_range)
  /\ fail_stop pf
       (reporting.get_search_terms_report customer_id parent_id date_range
          min_impressions)
  /\ fail_stop pf
       (reporting.get_geo_performance customer_id parent_id date_range).
Proof.
  destruct (campaigns_surface_failures client customer_id parent_id name
              channel_type new_status start end_ status_filter dollars)
    as (? & ? & ? & ? & ?).
  destruct (ads_surface_failures client customer_id parent_id ad_id name
              new_status headlines descriptions final_url path1 path2
              status_filter dollars) as (? & ? & ? & ?).
  destruct (keywords_surface_failures client customer_id parent_id keywords
              match_type date_range status_filter cpc_bid_dollars)
    as (? & ? & ? & ?).
  destruct (reporting_surface_failures customer_id parent_id date_range
              campaign_id min_impressions) as (? & ? & ? & ?).
  repeat match goal with |- _ /\ _ => split end;
    apply surfaces_failures_fail_stop; assumption.
Qed.

(** A platform that refuses the creation of campaigns and accepts the
    rest. *)
Definition campaign_refusing_platform : Platform := {|
  answer_search _ _ := Ok [];
  answer_mutate _ operations :=
    match operations with
    | mutate_campaigns _ => GoogleAdsException ["Policy violation"]
    | _ => Ok ["customers/1234567890/campaignBudgets/8"]
    end
|}.

Lemma refused_campaign_is_last_request :
  fst (run campaign_refusing_platform
         (campaigns.create_campaign "1234567890" "Rain" fifty_dollars "search"
            None None))
  = ([MutateRequest "1234567890"
        (mutate_campaign_budgets [Create (new_budget "Rain" 50000000)])]
     ++ MutateRequest "1234567890"
          (mutate_campaigns
             [Create (new_campaign "Rain"
                        "customers/1234567890/campaignBudgets/8" SEARCH
                        None None)])
        :: [])%list
  /\ failure_of campaign_refusing_platform
       (MutateRequest "1234567890"
          (mutate_campaigns
             [Create (new_campaign "Rain"
                        "customers/1234567890/campaignBudgets/8" SEARCH
                        None None)]))
     = Some ["Policy violation"]
  /\ snd (run campaign_refusing_platform
            (campaigns.create_campaign "1234567890" "Rain" fifty_dollars
               "search" None None))
     = Returned (campaigns._format_error ["Policy violation"]).
Proof.
  assert (Hsent : fst (run campaign_refusing_platform
                         (campaigns.create_campaign "1234567890" "Rain"
                            fifty_dollars "search" None None))
                  = ([MutateRequest "1234567890"
                        (mutate_campaign_budgets
                           [Create (new_budget "Rain" 50000000)])]
                     ++ MutateRequest "1234567890"
                          (mutate_campaigns
                             [Create (new_campaign "Rain"
                                        "customers/1234567890/campaignBudgets/8"
                                        SEARCH None None)])
                        :: [])%list)
    by (vm_compute; reflexivity).
  assert (Hfail : failure_of campaign_refusing_platform
                    (MutateRequest "1234567890"
                       (mutate_campaigns
                          [Create (new_campaign "Rain"
                                     "customers/1234567890/campaignBudgets/8"
                                     SEARCH None None)]))
                  = Some ["Policy violation"]) by reflexivity.
  split; [exact Hsent|]. split; [exact Hfail|].
  destruct (platform_failure_ends_every_tool campaign_refusing_platform
              google_ads_client "1234567890" "42" "9" "Rain" "search" "parka"
              "PHRASE" "PAUSED" "a|b|c" "d|e"
              "https://hogans.netlify.app/shop.html" "LAST_30_DAYS"
              None None None None None None 10 fifty_dollars None)
    as (_ & _ & Hcreate & _).
  destruct (Hcreate _ _ _ _ Hsent Hfail) as [_ Hout]. exact Hout.
Defined.

(* ================================================================= *)
(** ** How many requests a tool sends, and of which kind *)

(** [within n p]: whatever the platform answers, [p] sends at most [n]
    requests. *)
Fixpoint within (n : nat) (p : Prog) {struct p} : Prop :=
  match p with
  | Return _ | Raise _ => True
  | Search _ _ k =>
      match n with
      | O => False
      | S n' => forall reply, within n' (k reply)
      end
  | Mutate _ _ k =>
      match n with
      | O => False
      | S n' => forall reply, within n' (k reply)
      end
  end.

Lemma within_run (pf : Platform) (n : nat) (p : Prog) :
  within n p -> (List.length (fst (run pf p)) <= n)%nat.
Proof.
  revert n. induction p as [text|e|cid q k IH|cid ops k IH]; intros n Hw.
  - simpl. lia.
  - simpl. lia.
  - rewrite run_search. cbn [fst List.length].
    destruct n as [|n']; [contradiction|].
    specialize (IH (answer_search pf cid q) n' (Hw _)). lia.
  - rewrite run_mutate. cbn [fst List.length].
    destruct n as [|n']; [contradiction|].
    specialize (IH (answer_mutate pf cid ops) n' (Hw _)). lia.
Qed.

Definition is_search (r : Request) : Prop :=
  match r with SearchRequest _ _ => True | MutateRequest _ _ => False end.

Definition is_mutation (r : Request) : Prop :=
  match r with MutateRequest _ _ => True | SearchRequest _ _ => False end.

Lemma sends_in_run (pf : Platform) (p : Prog) (r : Request) :
  In r (fst (run pf p)) -> Sends p r.
Proof.
  induction p as [text|e|cid q k IH|cid ops k IH].
  - intros [].
  - intros [].
  - rewrite run_search. cbn [fst]. intros [<-|Hin].
    + apply sends_search.
    + eapply sends_after_search, IH, Hin.
  - rewrite run_mutate. cbn [fst]. intros [<-|Hin].
    + apply sends_mutate.
    + eapply sends_after_mutate, IH, Hin.
Qed.

Ltac within_bound :=
  repeat first
    [ exact I
    | progress cbn [within]
    | progress cbv beta
    | intros ?
    | match goal with
      | |- within _ (match ?x with _ => _ end) => destruct x
      | |- within _ (if ?x then _ else _) => destruct x
      end ].

Lemma only_search_sent (customer_id query : string)
    (k : Reply (list Row) -> Prog) (r : Request) :
  (forall reply, local (k reply)) ->
  Sends (Search customer_id query k) r -> r = SearchRequest customer_id query.
Proof.
  intros Hk H. inversion H; subst; [reflexivity|].
  exfalso. eapply Hk. eassumption.
Qed.

(** Against a stub, the tool sends at most one request, a search. *)
Definition reads_once (pf : Platform) (p : Prog) : Prop :=
  (List.length (fst (run pf p)) <= 1)%nat
  /\ Forall is_search (fst (run pf p)).

Lemma reads_once_intro (pf : Platform) (p : Prog) :
  within 1 p -> (forall r, Sends p r -> is_search r) -> reads_once pf p.
Proof.
  intros Hw Hs. split; [apply within_run, Hw|].
  apply Forall_forall. intros r Hin. apply Hs, (sends_in_run pf), Hin.
Qed.

Ltac reads_once :=
  apply reads_once_intro;
  [ within_bound
  | intros r H;
    match type of H with
    | Sends (Search ?cid ?q ?k) _ =>
        rewrite (only_search_sent cid q k r); [exact I| |exact H];
        ends_locally
    end ].

(** X2.  The nine read tools never change the account: whatever the
    platform answers, each sends at most one request, and that request is a
    search; no read tool fetches a second page or sends a mutation. *)
Theorem read_tools_send_one_search
    (pf : Platform)
    (customer_id parent_id date_range : string)
    (status_filter campaign_id : option string) (min_impressions : Z) :
  reads_once pf (campaigns.list_campaigns customer_id status_filter)
  /\ reads_once pf (campaigns.get_campaign customer_id parent_id)
  /\ reads_once pf (ads.list_ads customer_id parent_id status_filter)
  /\ reads_once pf (keywords.list_keywords customer_id parent_id status_filter)
  /\ reads_once pf
       (keywords.get_keyword_performance customer_id parent_id date_range)
  /\ reads_once pf
       (reporting.get_campaign_performance customer_id date_range campaign_id)
  /\ reads_once pf
       (reporting.get_ad_group_performance customer_id parent_id date_range)
  /\ reads_once pf
       (reporting.get_search_terms_report customer_id parent_id date_range
          min_impressions)
  /\ reads_once pf
       (reporting.get_geo_performance customer_id parent_id date_range).
Proof.
  unfold campaigns.list_campaigns, campaigns.get_campaign, ads.list_ads,
    keywords.list_keywords, keywords.get_keyword_performance,
    reporting.get_ad_group_performance, reporting.get_search_terms_report,
    reporting.get_geo_performance.
  repeat match goal with |- _ /\ _ => split end; try reads_once.
  unfold reporting.get_campaign_performance.
  destruct (reporting.date_filter date_range) as [e|predicate].
  - unfold reads_once. simpl. split; [lia|constructor].
  - reads_once.
Qed.

(** Against a stub, the tool sends at most [n] requests, all mutations. *)
Definition mutates_within (n : nat) (pf : Platform) (p : Prog) : Prop :=
  (List.length (fst (run pf p)) <= n)%nat
  /\ Forall is_mutation (fst (run pf p)).

Lemma mutates_within_intro (n : nat) (pf : Platform) (p : Prog) :
  within n p -> (forall r, Sends p r -> is_mutation r) ->
  mutates_within n pf p.
Proof.
  intros Hw Hs. split; [apply within_run, Hw|].
  apply Forall_forall. intros r Hin. apply Hs, (sends_in_run pf), Hin.
Qed.

Ltac mutates_within :=
  apply mutates_within_intro;
  [ within_bound | intros r H; sends_inv; exact I ].

(** X3.  The write tools send mutations only and never repeat one: the
    status updates, [create_ad_group], [create_responsive_search_ad],
    [add_keywords] and [add_negative_keywords] send at most one mutation
    (the whole keyword list travels in a single batch); [create_campaign]
    sends at most two; [update_campaign_budget] sends its lookup and then at
    most one mutation. *)
Theorem write_tools_send_bounded_mutations
    (pf : Platform) (client : Client)
    (customer_id parent_id ad_id name channel_type keywords match_type
       new_status headlines descriptions final_url : string)
    (start end_ path1 path2 : option string)
    (dollars : PyFloat.float) (cpc_bid_dollars : option PyFloat.float) :
  mutates_within 1 pf
    (campaigns.update_campaign_status client customer_id parent_id new_status)
  /\ mutates_within 1 pf
       (ads.update_ad_status client customer_id parent_id ad_id new_status)
  /\ mutates_within 1 pf
       (ads.create_ad_group client customer_id parent_id name dollars)
  /\ mutates_within 1 pf
       (ads.create_responsive_search_ad client customer_id parent_id
          headlines descriptions final_url path1 path2)
  /\ mutates_within 1 pf
       (keywords.add_keywords client customer_id parent_id keywords match_type
          cpc_bid_dollars)
  /\ mutates_within 1 pf
       (keywords.add_negative_keywords client customer_id parent_id keywords)
  /\ mutates_within 2 pf
       (campaigns.create_campaign customer_id name dollars channel_type
          start end_)
  /\ exists query rest,
       fst (run pf
              (campaigns.update_campaign_budget customer_id parent_id dollars))
       = SearchRequest customer_id query :: rest
       /\ (List.length rest <= 1)%nat
       /\ Forall is_mutation rest.
Proof.
  repeat match goal with |- _ /\ _ => split end.
  - unfold campaigns.update_campaign_status. mutates_within.
  - unfold ads.update_ad_status. mutates_within.
  - unfold ads.create_ad_group. mutates_within.
  - unfold ads.create_responsive_search_ad. mutates_within.
  - unfold keywords.add_keywords. mutates_within.
  - unfold keywords.add_negative_keywords. mutates_within.
  - unfold campaigns.create_campaign. mutates_within.
  - unfold campaigns.update_campaign_budget. rewrite run_search.
    cbn [fst]. eexists. eexists. split; [reflexivity|].
    apply mutates_within_intro.
    + within_bound.
    + intros r H. sends_inv. exact I.
Qed.

(* ================================================================= *)
(** ** Match types of [add_keywords] *)










(* ================================================================= *)
(** ** [create_campaign] is two mutations, not one *)

(** X5.  [create_campaign] creates the budget first and does not undo it:
    when the platform accepts the budget and then refuses the campaign, both
    mutations have been sent, the second built on the budget's resource
    name, and the tool returns the refusal; the budget stays behind. *)
Theorem create_campaign_leaves_budget_when_campaign_is_refused
    (pf : Platform) (customer_id name channel_type : string)
    (dollars : PyFloat.float) (start end_ : option string)
    (micros : Z) (budget_resource : string) (others errors : list string) :
  dollars_to_micros dollars = inr micros ->
  answer_mutate pf customer_id
    (mutate_campaign_budgets [Create (new_budget name micros)])
  = Ok (budget_resource :: others) ->
  answer_mutate pf customer_id
    (mutate_campaigns
       [Create (new_campaign name budget_resource
                  (campaigns.channel_of channel_type) start end_)])
  = GoogleAdsException errors ->
  run pf (campaigns.create_campaign customer_id name dollars channel_type
            start end_)
  = ([MutateRequest customer_id
        (mutate_campaign_budgets [Create (new_budget name micros)]);
      MutateRequest customer_id
        (mutate_campaigns
           [Create (new_campaign name budget_resource
                      (campaigns.channel_of channel_type) start end_)])],
     Returned (campaigns._format_error errors)).
Proof.
  intros Hm Hbudget Hcampaign.
  unfold campaigns.create_campaign. rewrite Hm.
  rewrite run_mutate. fold (new_budget name micros). rewrite Hbudget.
  cbv beta iota. cbn [first_result].
  rewrite run_mutate.
  fold (new_campaign name budget_resource (campaigns.channel_of channel_type)
          start end_).
  rewrite Hcampaign. reflexivity.
Qed.

Lemma refused_campaign_leaves_budget :
  dollars_to_micros fifty_dollars = inr 50000000
  /\ run campaign_refusing_platform
       (campaigns.create_campaign "1234567890" "Rain" fifty_dollars "display"
          None None)
     = ([MutateRequest "1234567890"
           (mutate_campaign_budgets [Create (new_budget "Rain" 50000000)]);
         MutateRequest "1234567890"
           (mutate_campaigns
              [Create (new_campaign "Rain"
                         "customers/1234567890/campaignBudgets/8"
                         (campaigns.channel_of "display") None None)])],
        Returned (campaigns._format_error ["Policy violation"])).
Proof.
  split; [exact fifty_dollars_in_micros|].
  apply (create_campaign_leaves_budget_when_campaign_is_refused
           campaign_refusing_platform "1234567890" "Rain" "display"
           fifty_dollars None None 50000000
           "customers/1234567890/campaignBudgets/8" [] ["Policy violation"]
           fifty_dollars_in_micros);
    reflexivity.
Defined.

(* ================================================================= *)
(** ** One operation per delimited item *)

(** Occurrences of a character in a text. *)
Fixpoint count_char (c : ascii) (s : string) : nat :=
  match s with
  | EmptyString => O
  | String c' s' => (if Ascii.eqb c' c then 1 else 0) + count_char c s'
  end.

Lemma split_length (sep : ascii) (s : string) :
  List.length (PyStr.split sep s) = S (count_char sep s).
Proof.
  induction s as [|c s IH]; simpl; [reflexivity|].
  destruct (Ascii.eqb c sep); simpl.
  - rewrite IH. reflexivity.
  - destruct (PyStr.split sep s) as [|h t]; simpl in *; [discriminate|].
    exact IH.
Qed.

Definition operations_count (r : Request) : nat :=
  match r with
  | SearchRequest _ _ => 0
  | MutateRequest _ (mutate_campaign_budgets ops) => List.length ops
  | MutateRequest _ (mutate_campaigns ops) => List.length ops
  | MutateRequest _ (mutate_ad_groups ops) => List.length ops
  | MutateRequest _ (mutate_ad_group_ads ops) => List.length ops
  | MutateRequest _ (mutate_ad_group_criteria ops) => List.length ops
  | MutateRequest _ (mutate_campaign_criteria ops) => List.length ops
  end.

Definition headlines_and_descriptions (r : Request) : list (nat * nat) :=
  match r with
  | MutateRequest _ (mutate_ad_group_ads ops) =>
      map (fun op => (List.length (rsa_headlines (entity_of op)),
                      List.length (rsa_descriptions (entity_of op)))) ops
  | _ => []
  end.

(** X6.  The size of what is sent is fixed by the delimiters alone: the
    batch of [add_keywords] and of [add_negative_keywords] holds one
    operation more than the argument has commas, and the single ad of
    [create_responsive_search_ad] holds one headline more than [headlines]
    has pipes and one description more than [descriptions] has pipes.  No
    tool drops, merges or caps items. *)
Theorem batch_sizes_follow_the_delimiters
    (client : Client)
    (customer_id parent_id keywords match_type headlines descriptions
       final_url : string)
    (path1 path2 : option string) (cpc_bid_dollars : option PyFloat.float)
    (r : Request) :
  (Sends (keywords.add_keywords client customer_id parent_id keywords
            match_type cpc_bid_dollars) r ->
   operations_count r = S (count_char "," keywords))
  /\ (Sends (keywords.add_negative_keywords client customer_id parent_id
               keywords) r ->
      operations_count r = S (count_char "," keywords))
  /\ (Sends (ads.create_responsive_search_ad client customer_id parent_id
               headlines descriptions final_url path1 path2) r ->
      headlines_and_descriptions r
      = [(S (count_char "|" headlines), S (count_char "|" descriptions))]).
Proof.
  split; [|split].
  - unfold keywords.add_keywords. intros H.
    destruct (dict_get keywords.match_map (PyStr.upper match_type))
      as [matching|]; [|inversion H].
    destruct (keywords.keyword_bid cpc_bid_dollars) as [e|bid].
    + rewrite for_each_raises in H.
      pose proof (map_not_nil PyStr.strip _ (split_not_nil "," keywords))
        as Hne.
      fold (keywords.comma_list keywords) in Hne.
      destruct (keywords.comma_list keywords); [contradiction|inversion H].
    + rewrite (for_each_pure
                 (keyword_op (ad_group_path client customer_id parent_id)
                    matching bid)) in H.
      sends_inv. simpl. unfold keywords.comma_list.
      rewrite !length_map. apply split_length.
  - unfold keywords.add_negative_keywords. intros H. sends_inv. simpl.
    unfold keywords.comma_list. rewrite !length_map. apply split_length.
  - unfold ads.create_responsive_search_ad. intros H. sends_inv. simpl.
    unfold ads.pipe_list. rewrite !length_map, !split_length. reflexivity.
Qed.

Lemma three_keywords_three_operations :
  Sends (keywords.add_negative_keywords google_ads_client "1234567890" "42"
           "cheap, free ,used")
    (MutateRequest "1234567890"
       (mutate_campaign_criteria
          (map (negative_keyword_op "customers/1234567890/campaigns/42")
             ["cheap"; "free"; "used"])))
  /\ operations_count
       (MutateRequest "1234567890"
          (mutate_campaign_criteria
             (map (negative_keyword_op "customers/1234567890/campaigns/42")
                ["cheap"; "free"; "used"])))
     = S (count_char "," "cheap, free ,used").
Proof.
  assert (H : Sends (keywords.add_negative_keywords google_ads_client
                       "1234567890" "42" "cheap, free ,used")
                (MutateRequest "1234567890"
                   (mutate_campaign_criteria
                      (map (negative_keyword_op
                              "customers/1234567890/campaigns/42")
                         ["cheap"; "free"; "used"]))))
    by apply sends_mutate.
  split; [exact H|].
  destruct (batch_sizes_follow_the_delimiters google_ads_client "1234567890"
              "42" "cheap, free ,used" "PHRASE" "a" "b" "url" None None None
              (MutateRequest "1234567890"
                 (mutate_campaign_criteria
                    (map (negative_keyword_op
                            "customers/1234567890/campaigns/42")
                       ["cheap"; "free"; "used"])))) as (_ & Hneg & _).
  exact (Hneg H).
Defined.

(* ================================================================= *)
(** ** The totals of the campaign report *)

(** The sum of an integer column. *)
Definition column_sum (column : MetricsRow -> Z) (rows : list Row) : Z :=
  fold_right (fun row total => column (metrics row) + total) 0 rows.

Lemma totals_accumulate (rows : list Row) (t : reporting.Totals) :
  reporting.total_clicks (fold_left reporting.add_row rows t)
  = reporting.total_clicks t + column_sum clicks rows
  /\ reporting.total_impressions (fold_left reporting.add_row rows t)
     = reporting.total_impressions t + column_sum impressions rows.
Proof.
  revert t. induction rows as [|row rows IH]; intros t; simpl.
  - split; lia.
  - destruct (IH (reporting.add_row t row)) as [Hc Hi].
    rewrite Hc, Hi. simpl. split; lia.
Qed.

Lemma column_sum_permutation (column : MetricsRow -> Z)
    (rows rows' : list Row) :
  Permutation rows rows' -> column_sum column rows = column_sum column rows'.
Proof.
  induction 1 as [|row l l' _ IH|a b l|l l' l'' _ IH1 _ IH2]; simpl.
  - reflexivity.
  - rewrite IH. reflexivity.
  - lia.
  - rewrite IH1. exact IH2.
Qed.

(** X7.  The click and impression totals of [get_campaign_performance]
    are the exact sums of the rows' columns, so they do not depend on the
    order in which the platform returns the rows. *)
Theorem integer_totals_are_sums_in_any_order (rows rows' : list Row) :
  Permutation rows rows' ->
  let totals := fold_left reporting.add_row rows reporting.no_totals in
  let totals' := fold_left reporting.add_row rows' reporting.no_totals in
  reporting.total_clicks totals = column_sum clicks rows
  /\ reporting.total_impressions totals = column_sum impressions rows
  /\ reporting.total_clicks totals' = reporting.total_clicks totals
  /\ reporting.total_impressions totals' = reporting.total_impressions totals.
Proof.
  intros Hperm totals totals'. subst totals totals'.
  destruct (totals_accumulate rows reporting.no_totals) as [Hc Hi].
  destruct (totals_accumulate rows' reporting.no_totals) as [Hc' Hi'].
  rewrite Hc, Hi, Hc', Hi'. simpl.
  rewrite (column_sum_permutation clicks _ _ Hperm).
  rewrite (column_sum_permutation impressions _ _ Hperm).
  repeat split; reflexivity.
Qed.

(** Two rows of a report. *)
Definition row_with (m : MetricsRow) : Row := {|
  campaign := campaign (budget_lookup_row "");
  budget_amount_micros := 0;
  metrics := m;
  ad_group := ad_group (budget_lookup_row "");
  ad_group_ad := ad_group_ad (budget_lookup_row "");
  ad_group_criterion := ad_group_criterion (budget_lookup_row "");
  search_term := "";
  geographic_view := geographic_view (budget_lookup_row "") |}.

Definition busy_metrics : MetricsRow := {|
  impressions := 1200; clicks := 36; ctr := PyFloat.literal 3 2;
  average_cpc := PyFloat.of_int 1250000; cost_micros := 45000000;
  conversions := PyFloat.of_int 3;
  conversions_value := PyFloat.of_int 1185;
  cost_per_conversion := PyFloat.of_int 15000000 |}.

Definition quiet_metrics : MetricsRow := {|
  impressions := 80; clicks := 1; ctr := PyFloat.literal 125 4;
  average_cpc := PyFloat.of_int 900000; cost_micros := 900000;
  conversions := PyFloat.zero;
  conversions_value := PyFloat.zero;
  cost_per_conversion := PyFloat.zero |}.

Lemma swapped_rows_same_totals :
  Permutation [row_with busy_metrics; row_with quiet_metrics]
    [row_with quiet_metrics; row_with busy_metrics]
  /\ reporting.total_clicks
       (fold_left reporting.add_row
          [row_with quiet_metrics; row_with busy_metrics] reporting.no_totals)
     = reporting.total_clicks
         (fold_left reporting.add_row
            [row_with busy_metrics; row_with quiet_metrics]
            reporting.no_totals).
Proof.
  assert (Hperm : Permutation [row_with busy_metrics; row_with quiet_metrics]
                    [row_with quiet_metrics; row_with busy_metrics])
    by apply perm_swap.
  split; [exact Hperm|].
  destruct (integer_totals_are_sums_in_any_order _ _ Hperm)
    as (_ & _ & Hc & _).
  exact Hc.
Defined.

(* ================================================================= *)
(** ** Guarded divisions of the campaign report *)

Lemma ltb_zero_negative_quotient (a b : Z) :
  a <= 0 -> 0 < b -> PyFloat.ltb PyFloat.zero (PyFloat.int_truediv a b) = false.
Proof.
  intros Ha Hb. unfold PyFloat.int_truediv.
  destruct a as [|a|a]; [| lia |].
  - destruct b; [lia|reflexivity|lia].
  - destruct b as [|b|b]; [lia| |lia].
    destruct (SFdiv_core_binary PyFloat.prec PyFloat.emax
                (Z.abs (Z.neg a)) 0 (Z.abs (Z.pos b)) 0) as [[q e] l].
    change (xorb (Z.neg a <? 0) (Z.pos b <? 0)) with true.
    pose proof (binary_round_aux_sign true q e l) as Hs.
    destruct (binary_round_aux PyFloat.prec PyFloat.emax true q e l)
      as [s|s| |s m e']; simpl in Hs; try subst s; reflexivity.
Qed.

(** X8.  The campaign report never divides by a zero it could meet: a row
    whose cost is zero or negative shows a return on ad spend of [0.00x], a
    row without conversions shows a cost per acquisition of [$0.00], and a
    report whose rows have no impressions at all shows a click-through rate
    of [0.00%]. *)
Theorem report_ratios_fall_back_to_zero
    (row : Row) (date_range : string) (totals : reporting.Totals) :
  (cost_micros (metrics row) <= 0 ->
   shows (reporting.get_campaign_performance_row row) "| ROAS: 0.00x")
  /\ (PyFloat.truthy (conversions (metrics row)) = false ->
      shows (reporting.get_campaign_performance_row row) "| CPA: $0.00 |")
  /\ (reporting.total_impressions totals = 0 ->
      shows (reporting.summary date_range totals) "| CTR: 0.00% |").
Proof.
  split; [|split].
  - intros Hcost. unfold reporting.get_campaign_performance_row.
    assert (Hroas : reporting.row_roas (metrics row) = PyFloat.zero).
    { unfold reporting.row_roas, reporting.row_cost, micros_to_dollars.
      rewrite ltb_zero_negative_quotient by lia. reflexivity. }
    cbv zeta. rewrite Hroas.
    change (PyFloat.format_f 2 PyFloat.zero) with "0.00".
    find_shown.
  - intros Hconv. unfold reporting.get_campaign_performance_row.
    assert (Hcpa : reporting.row_cpa (metrics row) = PyFloat.zero).
    { unfold reporting.row_cpa. rewrite Hconv. reflexivity. }
    cbv zeta. rewrite Hcpa.
    change (usd PyFloat.zero) with "$0.00".
    find_shown.
  - intros Himp. unfold reporting.summary. rewrite Himp.
    change (0 =? 0) with true. cbv iota zeta.
    change (PyFloat.format_pct 2 PyFloat.zero) with "0.00%".
    find_shown.
Qed.

Lemma quiet_row_shows_zero_ratios :
  cost_micros (metrics (row_with no_metrics)) <= 0
  /\ shows (reporting.get_campaign_performance_row (row_with no_metrics))
       "| ROAS: 0.00x"
  /\ PyFloat.truthy (conversions (metrics (row_with quiet_metrics))) = false
  /\ shows (reporting.get_campaign_performance_row (row_with quiet_metrics))
       "| CPA: $0.00 |".
Proof.
  assert (Hcost : cost_micros (metrics (row_with no_metrics)) <= 0)
    by (simpl; lia).
  assert (Hconv : PyFloat.truthy
                    (conversions (metrics (row_with quiet_metrics))) = false)
    by reflexivity.
  destruct (report_ratios_fall_back_to_zero (row_with no_metrics) ""
              reporting.no_totals) as (Hroas & _ & _).
  destruct (report_ratios_fall_back_to_zero (row_with quiet_metrics) ""
              reporting.no_totals) as (_ & Hcpa & _).
  repeat split; auto.
Defined.

(* ================================================================= *)
(** ** The budget lookup of [update_campaign_budget] *)

(** X9.  [update_campaign_budget] changes nothing unless its lookup finds
    a budget: when the search answers no row, or a first row whose budget
    resource name is empty, the tool returns "Campaign ... not found." after
    that single search, whatever the amount (the amount is not even
    converted, so an infinite or NaN amount raises nothing here). *)
Theorem update_campaign_budget_needs_a_found_budget
    (pf : Platform) (customer_id campaign_id : string)
    (dollars : PyFloat.float) :
  (answer_search pf customer_id
     (campaigns.update_campaign_budget_query campaign_id) = Ok []
   \/ exists row others,
        answer_search pf customer_id
          (campaigns.update_campaign_budget_query campaign_id)
        = Ok (row :: others)
        /\ row_campaign_budget (campaign row) = EmptyString) ->
  run pf (campaigns.update_campaign_budget customer_id campaign_id dollars)
  = ([SearchRequest customer_id
        (campaigns.update_campaign_budget_query campaign_id)],
     Returned ("Campaign " ++ campaign_id ++ " not found.")).
Proof.
  intros Hlookup. unfold campaigns.update_campaign_budget.
  rewrite run_search.
  destruct Hlookup as [Hnone|(row & others & Hrow & Hempty)].
  - rewrite Hnone. reflexivity.
  - rewrite Hrow. cbv beta iota. rewrite Hempty. reflexivity.
Qed.

Lemma unknown_campaign_budget_not_updated :
  (answer_search obliging_platform "1234567890"
     (campaigns.update_campaign_budget_query "42") = Ok []
   \/ exists row others,
        answer_search obliging_platform "1234567890"
          (campaigns.update_campaign_budget_query "42")
        = Ok (row :: others)
        /\ row_campaign_budget (campaign row) = EmptyString)
  /\ run obliging_platform
       (campaigns.update_campaign_budget "1234567890" "42"
          (S754_infinity false))
     = ([SearchRequest "1234567890"
           (campaigns.update_campaign_budget_query "42")],
        Returned "Campaign 42 not found.").
Proof.
  assert (H : answer_search obliging_platform "1234567890"
                (campaigns.update_campaign_budget_query "42") = Ok []
              \/ exists row others,
                   answer_search obliging_platform "1234567890"
                     (campaigns.update_campaign_budget_query "42")
                   = Ok (row :: others)
                   /\ row_campaign_budget (campaign row) = EmptyString)
    by (left; reflexivity).
  split; [exact H|].
  exact (update_campaign_budget_needs_a_found_budget obliging_platform
           "1234567890" "42" (S754_infinity false) H).
Defined.

(* ================================================================= *)
(** ** The dates of a new campaign *)

Lemma remove_char_clean (c : ascii) (s : string) :
  PyStr.contains c (PyStr.remove_char c s) = false.
Proof.
  induction s as [|c' s IH]; simpl; [reflexivity|].
  destruct (Ascii.eqb c' c) eqn:Hc; [exact IH|].
  simpl. rewrite Hc, IH. reflexivity.
Qed.

Lemma remove_char_without (c : ascii) (s : string) :
  PyStr.contains c s = false -> PyStr.remove_char c s = s.
Proof.
  induction s as [|c' s IH]; simpl; intros H; [reflexivity|].
  apply orb_false_iff in H as [Hc Hs]. rewrite Hc, (IH Hs). reflexivity.
Qed.

Lemma remove_char_app (c : ascii) (a b : string) :
  PyStr.remove_char c (a ++ b)
  = PyStr.remove_char c a ++ PyStr.remove_char c b.
Proof.
  induction a as [|c' a IH]; simpl; [reflexivity|].
  destruct (Ascii.eqb c' c); simpl; rewrite IH; reflexivity.
Qed.

Definition dash_free (date : option string) : Prop :=
  match date with
  | Some text => PyStr.contains "-" text = false
  | None => True
  end.

Definition dates_dash_free (r : Request) : Prop :=
  match r with
  | MutateRequest _ (mutate_campaigns ops) =>
      Forall (fun op => dash_free (start_date (entity_of op))
                        /\ dash_free (end_date (entity_of op))) ops
  | _ => True
  end.

Lemma date_field_dash_free (date : option string) :
  dash_free (campaigns.date_field date).
Proof.
  destruct date as [s|]; simpl; [|exact I].
  destruct (PyStr.truthy s); simpl; [apply remove_char_clean|exact I].
Qed.

(** X10.  [create_campaign] never sends a date holding a dash: a date
    written [YYYY-MM-DD] reaches the platform as [YYYYMMDD], every other
    character of the argument is kept in place, and an absent or empty date
    leaves the field unset. *)
Theorem campaign_dates_are_sent_without_dashes
    (customer_id name channel_type year month day : string)
    (dollars : PyFloat.float) (start end_ : option string) (r : Request) :
  PyStr.contains "-" year = false ->
  PyStr.contains "-" month = false ->
  PyStr.contains "-" day = false ->
  Sends (campaigns.create_campaign customer_id name dollars channel_type
           start end_) r ->
  dates_dash_free r
  /\ campaigns.date_field (Some (year ++ "-" ++ month ++ "-" ++ day))
     = Some (year ++ month ++ day)
  /\ campaigns.date_field None = None
  /\ campaigns.date_field (Some EmptyString) = None.
Proof.
  intros Hy Hm Hd H. split; [|split; [|split; reflexivity]].
  - destruct (create_campaign_sends _ _ _ _ _ _ _ H)
      as (micros & _ & [->|[budget_resource ->]]); [exact I|].
    constructor; [|constructor]. split; apply date_field_dash_free.
  - unfold campaigns.date_field.
    assert (Htruthy : PyStr.truthy (year ++ "-" ++ month ++ "-" ++ day) = true).
    { destruct year; reflexivity. }
    rewrite Htruthy. f_equal.
    rewrite !remove_char_app.
    rewrite (remove_char_without _ _ Hy), (remove_char_without _ _ Hm),
      (remove_char_without _ _ Hd).
    reflexivity.
Qed.

Lemma march_first_is_sent_compact :
  PyStr.contains "-" "2024" = false
  /\ PyStr.contains "-" "03" = false
  /\ PyStr.contains "-" "01" = false
  /\ Sends (campaigns.create_campaign "1234567890" "Rain" fifty_dollars
              "search" (Some "2024-03-01") None)
       (MutateRequest "1234567890"
          (mutate_campaign_budgets [Create (new_budget "Rain" 50000000)]))
  /\ campaigns.date_field (Some "2024-03-01") = Some "20240301".
Proof.
  assert (Hy : PyStr.contains "-" "2024" = false) by reflexivity.
  assert (Hm : PyStr.contains "-" "03" = false) by reflexivity.
  assert (Hd : PyStr.contains "-" "01" = false) by reflexivity.
  assert (H : Sends (campaigns.create_campaign "1234567890" "Rain"
                       fifty_dollars "search" (Some "2024-03-01") None)
                (MutateRequest "1234567890"
                   (mutate_campaign_budgets
                      [Create (new_budget "Rain" 50000000)]))).
  { unfold campaigns.create_campaign. rewrite fifty_dollars_in_micros.
    apply sends_mutate. }
  destruct (campaign_dates_are_sent_without_dashes "1234567890" "Rain"
              "search" "2024" "03" "01" fifty_dollars (Some "2024-03-01") None
              _ Hy Hm Hd H) as (_ & Hiso & _).
  repeat split; assumption.
Defined.

(* ================================================================= *)
(** ** skills/ai-tools/ai-multimodal/scripts/document_converter.py:
       [extract_pdf_pages] *)

Module document_converter.

(** What a call leaves behind: the lines printed, the pages written to the
    output file (if it was written) and the returned flag. *)
Record Extraction (Page : Type) : Type := {
  printed : list string;
  written : option (list Page);
  returned : bool
}.

Arguments printed {Page} _.
Arguments written {Page} _.
Arguments returned {Page} _.

(** [range(start, stop)] *)
Definition range (start stop : Z) : list Z :=
  map (fun i => start + Z.of_nat i) (seq 0 (Z.to_nat (stop - start))).

Section ExtractPages.
Variable Page : Type.

(** The builtin [int] on a text: the number, or the message of the
    [ValueError] it raises. *)
Variable int : string -> string + Z.

(** The message of the [ValueError] raised when that many values, more
    than two, are unpacked into [start, end]. *)
Variable unpack_message : nat -> string.

(** The page numbers asked for, zero-based. *)
Definition requested_pages (page_range : string) : string + list Z :=
  if PyStr.contains "-" page_range then
    match PyStr.split "-" page_range with
    | [start; end_] =>
        match int start with
        | inl message => inl message
        | inr start =>
            let start := start - 1 in
            match int end_ with
            | inl message => inl message
            | inr end_ => inr (range start end_)
            end
        end
    | values => inl (unpack_message (List.length values))
    end
  else
    match int page_range with
    | inl message => inl message
    | inr page => inr [page - 1]
    end.

(** The copying loop: the pages added to the writer and the warnings
    printed, both in loop order. *)
Fixpoint copy_pages (pages : list Page) (page_nums : list Z)
    : list Page * list string :=
  match page_nums with
  | [] => ([], [])
  | page_num :: rest =>
      let '(added, warnings) := copy_pages pages rest in
      if (0 <=? page_num) && (page_num <? Z.of_nat (List.length pages)) then
        match nth_error pages (Z.to_nat page_num) with
        | Some page => (page :: added, warnings)
        | None => (added, warnings)
        end
      else
        (added,
         ("Warning: Page " ++ PyStr.str_int (page_num + 1) ++ " out of range")
         :: warnings)
  end.

(** [extract_pdf_pages(input_path, output_path, page_range, verbose)].
    [pypdf] tells whether the import succeeds; [reader] is what
    [PdfReader(input_path)] gives, its pages or the message of the exception
    it raises; [open_error] is the message of the exception raised when the
    output file is opened, if any. *)
Definition extract_pdf_pages (pypdf : bool) (reader : string + list Page)
    (open_error : option string) (output_path page_range : string)
    (verbose : bool) : Extraction Page :=
  if negb pypdf then
    {| printed := ["Error: pypdf not installed";
                   "Install with: pip install pypdf"];
       written := None;
       returned := false |}
  else
    let failed (so_far : list string) (message : string) :=
      {| printed :=
           List.app so_far [("Error extracting pages: " ++ message)];
         written := None;
         returned := false |} in
    match reader with
    | inl message => failed [] message
    | inr pages =>
        (* Parse page range *)
        match requested_pages page_range with
        | inl message => failed [] message
        | inr page_nums =>
            let announced :=
              if verbose then
                ["Total pages in PDF: "
                 ++ PyStr.str_int (Z.of_nat (List.length pages));
                 "Extracting pages: " ++ page_range]
              else [] in
            let '(added, warnings) := copy_pages pages page_nums in
            let so_far := List.app announced warnings in
            match open_error with
            | Some message => failed so_far message
            | None =>
                {| printed :=
                     List.app so_far
                       (if verbose then
                          ["Extracted "
                           ++ PyStr.str_int (Z.of_nat (List.length added))
                           ++ " pages to " ++ output_path]
                        else []);
                   written := Some added;
                   returned := true |}
            end
        end
    end.

End ExtractPages.

End document_converter.

(** [pages[lo:hi]] for [hi >= 0]: the pages from index [max lo 0] up to,
    not including, index [hi]. *)
Definition page_slice {Page : Type} (pages : list Page) (lo hi : Z)
    : list Page :=
  firstn (Z.to_nat (hi - Z.max 0 lo)) (skipn (Z.to_nat lo) pages).

Section CopyPages.
Context {Page : Type}.
Variable pages : list Page.

Lemma skipn_cons_nth (k : nat) (page : Page) :
  nth_error pages k = Some page ->
  skipn k pages = page :: skipn (S k) pages.
Proof.
  revert k. induction pages as [|p rest IH]; intros k H.
  - destruct k; discriminate H.
  - destruct k as [|k]; simpl in *.
    + injection H as ->. reflexivity.
    + apply IH, H.
Qed.

Lemma range_succ (lo : Z) (n : nat) :
  map (fun i => lo + Z.of_nat i) (seq 0 (S n))
  = lo :: map (fun i => (lo + 1) + Z.of_nat i) (seq 0 n).
Proof.
  simpl. f_equal; [lia|].
  rewrite <- seq_shift, map_map.
  apply map_ext. intros i. lia.
Qed.

Lemma copy_range_is_slice (n : nat) (lo : Z) :
  fst (document_converter.copy_pages Page pages
         (map (fun i => lo + Z.of_nat i) (seq 0 n)))
  = page_slice pages lo (lo + Z.of_nat n).
Proof.
  revert lo. induction n as [|n IH]; intros lo.
  - unfold page_slice. simpl.
    replace (Z.to_nat (lo + 0 - Z.max 0 lo)) with O by lia. reflexivity.
  - rewrite range_succ. cbn [document_converter.copy_pages].
    specialize (IH (lo + 1)).
    destruct (document_converter.copy_pages Page pages
                (map (fun i => lo + 1 + Z.of_nat i) (seq 0 n)))
      as [added warnings].
    cbn [fst] in IH.
    destruct ((0 <=? lo) && (lo <? Z.of_nat (List.length pages))) eqn:Hin.
    + apply andb_true_iff in Hin as [Hlo Hhi].
      apply Z.leb_le in Hlo. apply Z.ltb_lt in Hhi.
      destruct (nth_error pages (Z.to_nat lo)) as [page|] eqn:Hnth.
      * cbn [fst]. rewrite IH. unfold page_slice.
        rewrite (skipn_cons_nth _ _ Hnth).
        replace (Z.to_nat (lo + Z.of_nat (S n) - Z.max 0 lo)) with (S n)
          by lia.
        replace (Z.to_nat (lo + 1 + Z.of_nat n - Z.max 0 (lo + 1))) with n
          by lia.
        replace (Z.to_nat (lo + 1)) with (S (Z.to_nat lo)) by lia.
        reflexivity.
      * exfalso. apply nth_error_None in Hnth. lia.
    + cbn [fst]. rewrite IH. unfold page_slice.
      apply andb_false_iff in Hin as [Hlo|Hhi].
      * apply Z.leb_gt in Hlo.
        replace (Z.to_nat (lo + 1)) with O by lia.
        replace (Z.to_nat lo) with O by lia.
        f_equal. lia.
      * apply Z.ltb_ge in Hhi.
        rewrite !skipn_all2 by lia. rewrite !firstn_nil. reflexivity.
Qed.


End CopyPages.

Lemma page_slice_clamped {Page : Type} (pages : list Page) (lo hi : Z) :
  page_slice pages lo (lo + Z.of_nat (Z.to_nat (hi - lo)))
  = page_slice pages lo hi.
Proof.
  unfold page_slice. destruct (Z.le_gt_cases lo hi) as [Hle|Hgt].
  - rewrite Z2Nat.id by lia. f_equal. lia.
  - replace (Z.to_nat (hi - lo)) with O by lia.
    replace (Z.to_nat (lo + Z.of_nat 0 - Z.max 0 lo)) with O by lia.
    replace (Z.to_nat (hi - Z.max 0 lo)) with O by lia.
    reflexivity.
Qed.

Section ExtractedPages.
Context {Page : Type}.
Variable int : string -> string + Z.
Variable unpack_message : nat -> string.
Variable pages : list Page.
Variables output_path : string.
Variable verbose : bool.

Lemma requested_interval (first last : string) (a b : Z) :
  PyStr.contains "-" first = false ->
  PyStr.contains "-" last = false ->
  int first = inr a -> int last = inr b ->
  document_converter.requested_pages int unpack_message (first ++ "-" ++ last)
  = inr (document_converter.range (a - 1) b).
Proof.
  intros Hf Hl Ha Hb. unfold document_converter.requested_pages.
  rewrite contains_app. cbn [append PyStr.contains].
  rewrite Ascii.eqb_refl, orb_true_r.
  rewrite split_app_sep by exact Hf.
  rewrite split_without_sep by exact Hl.
  rewrite Ha, Hb. reflexivity.
Qed.

Lemma extraction_written (page_range : string) (page_nums : list Z) :
  document_converter.requested_pages int unpack_message page_range = inr page_nums ->
  let x :=
    document_converter.extract_pdf_pages Page int unpack_message
      true (inr pages) None
      output_path page_range verbose in
  document_converter.written x
  = Some (fst (document_converter.copy_pages Page pages page_nums))
  /\ document_converter.returned x = true
  /\ List.length (document_converter.printed x)
     = ((if verbose then 3 else 0)
        + List.length
            (snd (document_converter.copy_pages Page pages page_nums)))%nat.
Proof.
  intros Hreq x. subst x. unfold document_converter.extract_pdf_pages.
  cbn [negb]. rewrite Hreq.
  destruct (document_converter.copy_pages Page pages page_nums)
    as [added warnings].
  cbn [document_converter.written document_converter.returned
       document_converter.printed fst snd].
  split; [reflexivity|]. split; [reflexivity|].
  rewrite !length_app. destruct verbose; simpl; lia.
Qed.

End ExtractedPages.

(** X11.  With a readable document and a writable output,
    [extract_pdf_pages] with the range ["a-b"] writes exactly the pages
    [a] to [b] of the document that exist, in document order (in Python
    terms [pages[max(a-1, 0):b]]), and returns [True]; a single number
    ["a"] writes page [a] if it exists.  A range that runs backwards or lies
    outside the document is not an error: it writes the pages that exist,
    possibly none. *)
Theorem extracted_pages_are_the_requested_slice
    (Page : Type) (int : string -> string + Z)
    (unpack_message : nat -> string)
    (pages : list Page)
    (output_path first last : string) (verbose : bool) (a b : Z) :
  PyStr.contains "-" first = false ->
  PyStr.contains "-" last = false ->
  int first = inr a ->
  int last = inr b ->
  let interval :=
    document_converter.extract_pdf_pages Page int unpack_message
      true (inr pages) None
      output_path (first ++ "-" ++ last) verbose in
  let single :=
    document_converter.extract_pdf_pages Page int unpack_message
      true (inr pages) None
      output_path first verbose in
  document_converter.written interval = Some (page_slice pages (a - 1) b)
  /\ document_converter.returned interval = true
  /\ document_converter.written single = Some (page_slice pages (a - 1) a)
  /\ document_converter.returned single = true.
Proof.
  intros Hf Hl Ha Hb interval single. subst interval single.
  destruct (extraction_written int unpack_message pages output_path verbose
              (first ++ "-" ++ last) _
              (requested_interval int unpack_message first last a b Hf Hl Ha Hb))
    as (Hw & Hr & _).
  assert (Hsingle : document_converter.requested_pages int unpack_message first
                    = inr [a - 1]).
  { unfold document_converter.requested_pages. rewrite Hf, Ha. reflexivity. }
  destruct (extraction_written int unpack_message pages output_path verbose first _ Hsingle)
    as (Hw1 & Hr1 & _).
  split; [|split; [exact Hr|split; [|exact Hr1]]].
  - rewrite Hw. f_equal. unfold document_converter.range.
    rewrite copy_range_is_slice. apply page_slice_clamped.
  - rewrite Hw1. f_equal.
    replace [a - 1] with (map (fun i => (a - 1) + Z.of_nat i) (seq 0 1))
      by (simpl; f_equal; lia).
    rewrite copy_range_is_slice. f_equal. lia.
Qed.

(** The unpacking message of CPython 3.11, for the worked examples. *)
Definition too_many_values (count : nat) : string :=
  "too many values to unpack (expected 2)".

(** A stand-in for the builtin [int] on plain digit strings, for the
    worked examples. *)
Definition decimal_int (s : string) : string + Z :=
  match NilZero.uint_of_string s with
  | Some digits => inr (Z.of_uint digits)
  | None => inl ("invalid literal for int() with base 10: '" ++ s ++ "'")
  end.

Lemma pages_two_to_nine_of_four :
  PyStr.contains "-" "2" = false
  /\ PyStr.contains "-" "9" = false
  /\ decimal_int "2" = inr 2
  /\ decimal_int "9" = inr 9
  /\ document_converter.written
       (document_converter.extract_pdf_pages string decimal_int
          too_many_values true
          (inr ["cover"; "contents"; "chapter"; "index"]) None "out.pdf" "2-9"
          false)
     = Some ["contents"; "chapter"; "index"]
  /\ document_converter.written
       (document_converter.extract_pdf_pages string decimal_int
          too_many_values true
          (inr ["cover"; "contents"; "chapter"; "index"]) None "out.pdf" "2"
          false)
     = Some ["contents"].
Proof.
  assert (Hf : PyStr.contains "-" "2" = false) by reflexivity.
  assert (Hl : PyStr.contains "-" "9" = false) by reflexivity.
  assert (Ha : decimal_int "2" = inr 2) by reflexivity.
  assert (Hb : decimal_int "9" = inr 9) by reflexivity.
  destruct (extracted_pages_are_the_requested_slice string decimal_int
              too_many_values
              ["cover"; "contents"; "chapter"; "index"] "out.pdf" "2" "9"
              false 2 9 Hf Hl Ha Hb) as (Hw & _ & Hw1 & _).
  repeat split; assumption.
Defined.



(** What a failed call leaves behind: one error line, no output file. *)
Definition extraction_failed {Page : Type} (message : string)
    : document_converter.Extraction Page :=
  {| document_converter.printed := ["Error extracting pages: " ++ message];
     document_converter.written := None;
     document_converter.returned := false |}.

(** X13.  A page range that does not parse stops [extract_pdf_pages]
    before any page is copied: with more than one dash the unpacking fails
    on one value more than there are dashes, and when [int] rejects the number before the dash, the number after it
    or the single number, its message is reported; in each case the call
    prints one "Error extracting pages: ..." line and nothing else, writes no
    output file and returns [False]. *)
Theorem unparsable_page_range_writes_nothing
    (Page : Type) (int : string -> string + Z)
    (unpack_message : nat -> string)
    (pages : list Page)
    (open_error : option string) (output_path first last rest : string)
    (verbose : bool) (message : string) :
  PyStr.contains "-" first = false ->
  PyStr.contains "-" last = false ->
  let extract :=
    document_converter.extract_pdf_pages Page int unpack_message
      true (inr pages) open_error output_path in
  extract (first ++ "-" ++ last ++ "-" ++ rest) verbose
  = extraction_failed
      (unpack_message (S (S (S (count_char "-" rest)))))
  /\ (int first = inl message ->
      extract (first ++ "-" ++ last) verbose = extraction_failed message
      /\ extract first verbose = extraction_failed message)
  /\ (forall a,
        int first = inr a -> int last = inl message ->
        extract (first ++ "-" ++ last) verbose = extraction_failed message).
Proof.
  intros Hf Hl extract. subst extract.
  unfold document_converter.extract_pdf_pages. cbn [negb].
  assert (Hpair : forall tail,
             PyStr.contains "-" (first ++ "-" ++ tail) = true).
  { intros tail. rewrite contains_app. cbn [append PyStr.contains].
    rewrite Ascii.eqb_refl, orb_true_r. reflexivity. }
  split; [|split].
  - unfold document_converter.requested_pages. rewrite Hpair.
    cbn [append].
    rewrite split_app_sep by exact Hf.
    rewrite split_app_sep by exact Hl.
    pose proof (split_length "-" rest) as Hlen.
    destruct (PyStr.split "-" rest) as [|item items];
      [discriminate Hlen|].
    cbn [List.length] in *. rewrite Hlen. reflexivity.
  - intros Hfirst. unfold document_converter.requested_pages.
    rewrite Hpair, Hf. cbn [append].
    rewrite split_app_sep by exact Hf.
    rewrite split_without_sep by exact Hl.
    rewrite Hfirst. split; reflexivity.
  - intros a Hfirst Hlast. unfold document_converter.requested_pages.
    rewrite Hpair. cbn [append].
    rewrite split_app_sep by exact Hf.
    rewrite split_without_sep by exact Hl.
    rewrite Hfirst, Hlast. reflexivity.
Qed.

Lemma letter_range_writes_nothing :
  PyStr.contains "-" "a" = false
  /\ PyStr.contains "-" "3" = false
  /\ decimal_int "a" = inl "invalid literal for int() with base 10: 'a'"
  /\ document_converter.extract_pdf_pages string decimal_int
       too_many_values true (inr ["cover"; "contents"]) None "out.pdf"
       "a-3-4" true
     = extraction_failed "too many values to unpack (expected 2)"
  /\ document_converter.extract_pdf_pages string decimal_int
       too_many_values true (inr ["cover"; "contents"]) None "out.pdf"
       "a-3" true
     = extraction_failed "invalid literal for int() with base 10: 'a'".
Proof.
  assert (Hf : PyStr.contains "-" "a" = false) by reflexivity.
  assert (Hl : PyStr.contains "-" "3" = false) by reflexivity.
  assert (Ha : decimal_int "a"
               = inl "invalid literal for int() with base 10: 'a'")
    by reflexivity.
  destruct (unparsable_page_range_writes_nothing string decimal_int
              too_many_values ["cover"; "contents"] None "out.pdf" "a" "3"
              "4" true "invalid literal for int() with base 10: 'a'" Hf Hl)
    as (Hmany & Hfirst & _).
  destruct (Hfirst Ha) as [Hpair _].
  repeat split; assumption.
Defined.

(* ================================================================= *)
(** ** The account every request is scoped to *)

Definition request_customer (r : Request) : string :=
  match r with
  | SearchRequest customer_id _ => customer_id
  | MutateRequest customer_id _ => customer_id
  end.

(** Every request of the program goes to [customer_id]. *)
Definition scoped_to (customer_id : string) (p : Prog) : Prop :=
  forall r, Sends p r -> request_customer r = customer_id.

Ltac scoped :=
  intros r H; sends_inv; reflexivity.

(** X14.  Every request a tool sends, the lookup of
    [update_campaign_budget] and the second mutation of [create_campaign]
    included, is scoped to the customer id the caller gave, character for
    character: no tool rewrites the id (dashes are not stripped) or reaches
    another account. *)
Theorem every_request_goes_to_the_callers_account
    (client : Client)
    (customer_id parent_id ad_id name channel_type keywords match_type
       new_status headlines descriptions final_url date_range : string)
    (start end_ path1 path2 status_filter campaign_id : option string)
    (min_impressions : Z)
    (dollars : PyFloat.float) (cpc_bid_dollars : option PyFloat.float) :
  let scoped := scoped_to customer_id in
  scoped (campaigns.list_campaigns customer_id status_filter)
  /\ scoped (campaigns.get_campaign customer_id parent_id)
  /\ scoped
       (campaigns.create_campaign customer_id name dollars channel_type
          start end_)
  /\ scoped
       (campaigns.update_campaign_status client customer_id parent_id
          new_status)
  /\ scoped (campaigns.update_campaign_budget customer_id parent_id dollars)
  /\ scoped (ads.create_ad_group client customer_id parent_id name dollars)
  /\ scoped
       (ads.create_responsive_search_ad client customer_id parent_id
          headlines descriptions final_url path1 path2)
  /\ scoped (ads.list_ads customer_id parent_id status_filter)
  /\ scoped
       (ads.update_ad_status client customer_id parent_id ad_id new_status)
  /\ scoped (keywords.list_keywords customer_id parent_id status_filter)
  /\ scoped
       (keywords.add_keywords client customer_id parent_id keywords match_type
          cpc_bid_dollars)
  /\ scoped
       (keywords.add_negative_keywords client customer_id parent_id keywords)
  /\ scoped
       (keywords.get_keyword_performance customer_id parent_id date_range)
  /\ scoped
       (reporting.get_campaign_performance customer_id date_range campaign_id)
  /\ scoped
       (reporting.get_ad_group_performance customer_id parent_id date_range)
  /\ scoped
       (reporting.get_search_terms_report customer_id parent_id date_range
          min_impressions)
  /\ scoped (reporting.get_geo_performance customer_id parent_id date_range).
Proof.
  intros scoped. subst scoped.
  unfold campaigns.list_campaigns, campaigns.get_campaign,
    campaigns.create_campaign, campaigns.update_campaign_status,
    campaigns.update_campaign_budget, ads.create_ad_group,
    ads.create_responsive_search_ad, ads.list_ads, ads.update_ad_status,
    keywords.list_keywords, keywords.add_keywords,
    keywords.add_negative_keywords, keywords.get_keyword_performance,
    reporting.get_campaign_performance, reporting.get_ad_group_performance,
    reporting.get_search_terms_report, reporting.get_geo_performance.
  repeat match goal with |- _ /\ _ => split end; scoped.
Qed.

Lemma dashed_customer_id_is_kept :
  Sends (campaigns.list_campaigns "123-456-7890" None)
    (SearchRequest "123-456-7890"
       (campaigns.list_campaigns_query ++ " ORDER BY campaign.name"))
  /\ request_customer
       (SearchRequest "123-456-7890"
          (campaigns.list_campaigns_query ++ " ORDER BY campaign.name"))
     = "123-456-7890".
Proof.
  assert (H : Sends (campaigns.list_campaigns "123-456-7890" None)
                (SearchRequest "123-456-7890"
                   (campaigns.list_campaigns_query
                    ++ " ORDER BY campaign.name")))
    by apply sends_search.
  split; [exact H|].
  destruct (every_request_goes_to_the_callers_account google_ads_client
              "123-456-7890" "42" "9" "Rain" "search" "parka" "PHRASE"
              "PAUSED" "a|b|c" "d|e" "https://hogans.netlify.app/shop.html"
              "LAST_30_DAYS" None None None None None None 10 fifty_dollars
              None) as (Hlist & _).
  exact (Hlist _ H).
Defined.

(* ================================================================= *)
(** ** What is created, and in which state *)

(** The state of everything a request creates. *)
Definition created_states (r : Request) : list (option Status) :=
  match r with
  | MutateRequest _ (mutate_campaigns ops) =>
      map (fun op => campaign_status (entity_of op)) ops
  | MutateRequest _ (mutate_ad_groups ops) =>
      map (fun op => ad_group_status (entity_of op)) ops
  | MutateRequest _ (mutate_ad_group_ads ops) =>
      map (fun op => ad_status (entity_of op)) ops
  | MutateRequest _ (mutate_ad_group_criteria ops) =>
      map (fun op => criterion_status (entity_of op)) ops
  | _ => []
  end.

(** The negative keywords of a request: their flag and match type. *)
Definition negative_criteria (r : Request)
    : list (option bool * option MatchType) :=
  match r with
  | MutateRequest _ (mutate_campaign_criteria ops) =>
      map (fun op => (negative (entity_of op),
                      negative_match_type (entity_of op))) ops
  | _ => []
  end.

Lemma keyword_states (ad_group : string) (matching : MatchType)
    (bid : option Z) (items : list string) :
  Forall (eq (Some ENABLED))
    (map (fun op => criterion_status (entity_of op))
       (map (keyword_op ad_group matching bid) items)).
Proof.
  induction items as [|item rest IH]; simpl; constructor;
    [reflexivity|exact IH].
Qed.

(** X15.  Only campaigns start paused.  Whatever the arguments, the ad
    group of [create_ad_group], the ad of [create_responsive_search_ad] and
    every keyword of [add_keywords] are created ENABLED, every campaign of
    [create_campaign] is created PAUSED, and every criterion of
    [add_negative_keywords] is a negative keyword with BROAD match. *)
Theorem created_entities_are_enabled_except_campaigns
    (client : Client)
    (customer_id parent_id name channel_type keywords match_type headlines
       descriptions final_url : string)
    (start end_ path1 path2 : option string)
    (dollars : PyFloat.float) (cpc_bid_dollars : option PyFloat.float)
    (r : Request) :
  (Sends (ads.create_ad_group client customer_id parent_id name dollars) r ->
   Forall (eq (Some ENABLED)) (created_states r))
  /\ (Sends (ads.create_responsive_search_ad client customer_id parent_id
               headlines descriptions final_url path1 path2) r ->
      Forall (eq (Some ENABLED)) (created_states r))
  /\ (Sends (keywords.add_keywords client customer_id parent_id keywords
               match_type cpc_bid_dollars) r ->
      Forall (eq (Some ENABLED)) (created_states r))
  /\ (Sends (campaigns.create_campaign customer_id name dollars channel_type
               start end_) r ->
      Forall (eq (Some PAUSED)) (created_states r))
  /\ (Sends (keywords.add_negative_keywords client customer_id parent_id
               keywords) r ->
      Forall (eq (Some true, Some BROAD)) (negative_criteria r)).
Proof.
  repeat match goal with |- _ /\ _ => split end.
  - unfold ads.create_ad_group. intros H. sends_inv.
    repeat constructor.
  - unfold ads.create_responsive_search_ad. intros H. sends_inv.
    repeat constructor.
  - unfold keywords.add_keywords. intros H.
    destruct (dict_get keywords.match_map (PyStr.upper match_type))
      as [matching|]; [|inversion H].
    destruct (keywords.keyword_bid cpc_bid_dollars) as [e|bid].
    + rewrite for_each_raises in H.
      destruct (keywords.comma_list keywords); sends_inv. constructor.
    + rewrite (for_each_pure
                 (keyword_op (ad_group_path client customer_id parent_id)
                    matching bid)) in H.
      sends_inv. apply keyword_states.
  - intros H.
    destruct (create_campaign_sends _ _ _ _ _ _ _ H)
      as (micros & _ & [->|[budget_resource ->]]); repeat constructor.
  - unfold keywords.add_negative_keywords. intros H. sends_inv.
    simpl. rewrite map_map. apply Forall_map, Forall_forall.
    intros item _. reflexivity.
Qed.

Lemma new_ad_group_is_enabled :
  Sends (ads.create_ad_group google_ads_client "1234567890" "42" "Parkas"
           fifty_dollars)
    (MutateRequest "1234567890"
       (mutate_ad_groups
          [Create (new_ad_group "Parkas" "customers/1234567890/campaigns/42"
                     50000000)]))
  /\ Forall (eq (Some ENABLED))
       (created_states
          (MutateRequest "1234567890"
             (mutate_ad_groups
                [Create (new_ad_group "Parkas"
                           "customers/1234567890/campaigns/42" 50000000)]))).
Proof.
  assert (H : Sends (ads.create_ad_group google_ads_client "1234567890" "42"
                       "Parkas" fifty_dollars)
                (MutateRequest "1234567890"
                   (mutate_ad_groups
                      [Create (new_ad_group "Parkas"
                                 "customers/1234567890/campaigns/42"
                                 50000000)]))).
  { unfold ads.create_ad_group. rewrite fifty_dollars_in_micros.
    apply sends_mutate. }
  split; [exact H|].
  destruct (created_entities_are_enabled_except_campaigns google_ads_client
              "1234567890" "42" "Parkas" "search" "parka" "PHRASE" "a|b|c"
              "d|e" "https://hogans.netlify.app/shop.html" None None None None
              fifty_dollars None
              (MutateRequest "1234567890"
                 (mutate_ad_groups
                    [Create (new_ad_group "Parkas"
                               "customers/1234567890/campaigns/42"
                               50000000)]))) as (Hgroup & _).
  exact (Hgroup H).
Defined.
